(** * git-llm-analyzer: the retrieval and ranking engine

    A shallow embedding of [src/utils.py] and [src/file_processing.py]
    (with the gate of [app.py]) and the properties of the repository's
    specification that concern them.

    Conventions.
    - A Python [str] is a sequence of code points; the development covers
      the code points below 256, so a character is an [ascii] and the
      character classes of [re] ([\s], [\w], [\d]) and [str.lower] follow
      Python's Unicode tables restricted to that range.
    - A numpy [float64] is a primitive binary64 [float].
    - A Python exception is a value of [exn]; code that may raise returns
      a [result]. *)

From Stdlib Require Import List Bool Arith Lia String Ascii DecimalString.
From Stdlib Require Import Permutation Sorted.
From Stdlib Require Import ZArith Uint63 Floats.
Import ListNotations.

Local Open Scope char_scope.
Local Open Scope nat_scope.
Local Open Scope list_scope.

(** ** Exceptions *)

Inductive exn : Type :=
  | AttributeError
  | ValueError
  | ZeroDivisionError
  | IndexError.

Inductive result (A : Type) : Type :=
  | Ok (a : A)
  | Raise (e : exn).

Arguments Ok {A} a.
Arguments Raise {A} e.

Definition bind {A B : Type} (r : result A) (k : A -> result B) : result B :=
  match r with
  | Ok a => k a
  | Raise e => Raise e
  end.

Notation "x <- r ;; k" := (bind r (fun x => k))
  (at level 61, r at next level, right associativity).

(** ** Characters and the classes of [re] *)

Module Text.

Definition code (c : ascii) : nat := nat_of_ascii c.

Definition in_range (lo hi : nat) (c : ascii) : bool :=
  (lo <=? code c) && (code c <=? hi).

(** [\s]: [str.isspace], that is TAB..CR, FS..US, SPACE, NEL and NBSP. *)
Definition is_space (c : ascii) : bool :=
  in_range 9 13 c || in_range 28 32 c || (code c =? 133) || (code c =? 160).

(** [\d]: the decimal digits. *)
Definition is_decimal (c : ascii) : bool := in_range 48 57 c.

(** [str.isalpha]: the letters, among them feminine and masculine ordinal
    indicators, the micro sign and the accented Latin letters. *)
Definition is_alpha (c : ascii) : bool :=
  in_range 65 90 c || in_range 97 122 c
  || (code c =? 170) || (code c =? 181) || (code c =? 186)
  || in_range 192 214 c || in_range 216 246 c || in_range 248 255 c.

(** [str.isnumeric]: the decimal digits, the superscripts one, two and
    three and the vulgar fractions. *)
Definition is_numeric (c : ascii) : bool :=
  is_decimal c || (code c =? 178) || (code c =? 179) || (code c =? 185)
  || in_range 188 190 c.

(** [\w]: alphanumeric or underscore. *)
Definition is_word (c : ascii) : bool :=
  is_alpha c || is_numeric c || (c =? "_")%char.

(** [str.lower] on one character. *)
Definition lower (c : ascii) : ascii :=
  if in_range 65 90 c || in_range 192 214 c || in_range 216 222 c
  then ascii_of_nat (code c + 32)
  else c.

(** [.] without DOTALL: anything but a line feed. *)
Definition is_dot (c : ascii) : bool := negb (code c =? 10).

(** *** The substitutions of [clean_and_tokenize], one per [re.sub] *)

(** [re.sub(r"\s+", " ", text)]: [in_run] tells that the previous character
    belonged to the run of white space being replaced. *)
Fixpoint sub_spaces (in_run : bool) (s : list ascii) : list ascii :=
  match s with
  | [] => []
  | c :: r =>
      if is_space c
      then if in_run then sub_spaces true r else " " :: sub_spaces true r
      else c :: sub_spaces false r
  end.

(** [re.sub(opener body* closer, "", text)] for a one-character opener and
    closer that [body] does not match past (a negated class, or a lazy
    star).  [pending] holds, reversed, the text from the opener of the
    attempted match on; it is dropped when the closer arrives and given
    back when the match fails, at a character outside [body] or at the end
    of the text. *)
Fixpoint sub_delimited (opener closer : ascii) (body : ascii -> bool)
    (pending : option (list ascii)) (s : list ascii) : list ascii :=
  match s with
  | [] =>
      match pending with
      | None => []
      | Some p => rev p
      end
  | c :: r =>
      match pending with
      | None =>
          if (c =? opener)%char
          then sub_delimited opener closer body (Some [c]) r
          else c :: sub_delimited opener closer body None r
      | Some p =>
          if (c =? closer)%char
          then sub_delimited opener closer body None r
          else if body c
          then sub_delimited opener closer body (Some (c :: p)) r
          else rev p ++
               (if (c =? opener)%char
                then sub_delimited opener closer body (Some [c]) r
                else c :: sub_delimited opener closer body None r)
      end
  end.

(** [re.sub(r"<[^>]*>", "", text)] *)
Definition sub_tags (s : list ascii) : list ascii :=
  sub_delimited "<" ">" (fun c => negb (c =? ">")%char) None s.

(** [re.sub(r"\[.*?\]", "", text)] *)
Definition sub_brackets (s : list ascii) : list ascii :=
  sub_delimited "[" "]" is_dot None s.

(** [re.sub(r"\(.*?\)", "", text)] *)
Definition sub_parens (s : list ascii) : list ascii :=
  sub_delimited "(" ")" is_dot None s.

Fixpoint strip_prefix (p s : list ascii) : option (list ascii) :=
  match p, s with
  | [], _ => Some s
  | a :: p', b :: s' => if (a =? b)%char then strip_prefix p' s' else None
  | _ :: _, [] => None
  end.

(** [://\S] at the head of [s]. *)
Definition url_rest (s : list ascii) : bool :=
  match strip_prefix [":"; "/"; "/"] s with
  | Some (c :: _) => negb (is_space c)
  | _ => false
  end.

(** [(?:http|ftp)s?://\S] at the head of [s]; the optional [s] is tried
    first and given up when the rest does not follow. *)
Definition url_head (s : list ascii) : bool :=
  let scheme p :=
    match strip_prefix p s with
    | Some r =>
        match r with
        | "s" :: t => url_rest t || url_rest r
        | _ => url_rest r
        end
    | None => false
    end in
  scheme ["h"; "t"; "t"; "p"] || scheme ["f"; "t"; "p"].

(** [re.sub(r"\b(?:http|ftp)s?://\S+", "", text)]: [prev_word] tells that
    the previous character is a word character (no [\b] here then), and
    [in_url] that a match is being consumed, which the greedy [\S+] ends at
    the next white space. *)
Fixpoint sub_urls (prev_word in_url : bool) (s : list ascii) : list ascii :=
  match s with
  | [] => []
  | c :: r =>
      if in_url
      then if is_space c
           then c :: sub_urls false false r
           else sub_urls true true r
      else if negb prev_word && url_head s
      then sub_urls true true r
      else c :: sub_urls (is_word c) false r
  end.

(** [re.sub(r"\W", " ", text)] *)
Definition sub_nonword (s : list ascii) : list ascii :=
  map (fun c => if is_word c then c else " ") s.

(** [re.sub(r"\d+", "", text)] *)
Definition sub_digits (s : list ascii) : list ascii :=
  filter (fun c => negb (is_decimal c)) s.

(** [text.lower()] *)
Definition str_lower (s : list ascii) : list ascii := map lower s.

(** [str.split()]: the maximal runs of characters that are not white space.
    [cur] is the run being read, reversed. *)
Fixpoint split_ws (cur : list ascii) (s : list ascii) : list (list ascii) :=
  match s with
  | [] =>
      match cur with
      | [] => []
      | _ => [rev cur]
      end
  | c :: r =>
      if is_space c
      then match cur with
           | [] => split_ws [] r
           | _ => rev cur :: split_ws [] r
           end
      else split_ws (c :: cur) r
  end.

Definition str_split (s : list ascii) : list (list ascii) := split_ws [] s.

End Text.

(** ** [nltk.word_tokenize] *)

Module NLTK.

Import Text.

(** The contractions of nltk's [MacIntyreContractions.CONTRACTIONS2] that
    are written without an apostrophe, each as its two parts. *)
Definition CONTRACTIONS2 : list (string * string) :=
  [ ("can", "not"); ("gim", "me"); ("gon", "na");
    ("got", "ta"); ("lem", "me"); ("wan", "na") ]%string.

Definition word_is (w : list ascii) (p : string * string) : bool :=
  String.eqb (string_of_list_ascii (str_lower w)) (fst p ++ snd p).

(** A word that is one of the contractions, in any case, is cut in two. *)
Definition split_contraction (w : list ascii) : list (list ascii) :=
  match find (word_is w) CONTRACTIONS2 with
  | Some p => [firstn (String.length (fst p)) w; skipn (String.length (fst p)) w]
  | None => [w]
  end.

(** Modelled from the spec: [nltk.word_tokenize] is library code, not
    under [src/]; section 4.1 has it split the text at word boundaries.
    [clean_and_tokenize] calls it on text made of word characters and
    spaces only, where no rule on punctuation, quotes or sentence ends
    applies: what is left of nltk's Treebank tokenizer there is its
    contraction rules and the final [text.split()]. *)
Definition word_tokenize (text : list ascii) : list (list ascii) :=
  flat_map split_contraction (str_split text).

End NLTK.

(** ** [src/utils.py] *)

(** [clean_and_tokenize(text)] *)
Definition clean_and_tokenize (text : string) : list string :=
  let text := list_ascii_of_string text in
  let text := Text.sub_spaces false text in
  let text := Text.sub_tags text in
  let text := Text.sub_brackets text in
  let text := Text.sub_parens text in
  let text := Text.sub_urls false false text in
  let text := Text.sub_nonword text in
  let text := Text.sub_digits text in
  let text := Text.str_lower text in
  map string_of_list_ascii (NLTK.word_tokenize text).

(** A chunk, or a whole file before chunking: langchain's [Document] with
    the two metadata entries the program sets. *)
Record Document : Type := mkDocument {
  page_content : string;
  source : string;
  file_id : string
}.

(** [os.path.basename] of [posixpath]: what follows the last slash. *)
Fixpoint basename_from (cur : string) (p : string) : string :=
  match p with
  | EmptyString => cur
  | String c r =>
      if (c =? "/")%char then basename_from r r else basename_from cur r
  end.

Definition basename (p : string) : string := basename_from p p.

(** [str(n)] of a non-negative integer. *)
Definition str_of_nat (n : nat) : string :=
  NilEmpty.string_of_uint (Nat.to_uint n).

Definition newline : string := String (ascii_of_nat 10) EmptyString.

(** [enumerate(l)] *)
Definition enumerate {A : Type} (l : list A) : list (nat * A) :=
  combine (seq 0 (List.length l)) l.

(** [format_documents(documents)] *)
Definition format_documents (documents : list Document) : string :=
  let numbered_docs :=
    String.concat newline
      (map (fun '(i, doc) =>
              (str_of_nat (i + 1) ++ ". " ++ basename (source doc)
               ++ ": " ++ page_content doc)%string)
           (enumerate documents)) in
  numbered_docs.

(** ** Python and numpy values the program computes with *)

(** A [dict] with [str] keys, in insertion order. *)
Module Dict.

Definition t (A : Type) : Type := list (string * A).

Fixpoint get {A : Type} (d : t A) (k : string) : option A :=
  match d with
  | [] => None
  | (k', v) :: r => if String.eqb k' k then Some v else get r k
  end.

(** [d[k] = v]: a present key keeps its place. *)
Fixpoint set {A : Type} (d : t A) (k : string) (v : A) : t A :=
  match d with
  | [] => [(k, v)]
  | (k', v') :: r =>
      if String.eqb k' k then (k', v) :: r else (k', v') :: set r k v
  end.

(** [d[k] = d.get(k, 0) + 1] *)
Definition incr (d : t nat) (k : string) : t nat :=
  match get d k with
  | Some n => set d k (S n)
  | None => set d k 1
  end.

Definition keys {A : Type} (d : t A) : list string := map fst d.

Definition values {A : Type} (d : t A) : list A := map snd d.

End Dict.

(** One-dimensional numpy arrays of [float64]. *)
Module Np.

Definition float_of_nat (n : nat) : float :=
  PrimFloat.of_uint63 (Uint63.of_Z (Z.of_nat n)).

Definition zeros (n : nat) : list float := repeat 0%float n.

(** [a * c] for a scalar [c] *)
Definition scale (a : list float) (c : float) : list float :=
  map (fun x => (x * c)%float) a.

(** An elementwise operation with broadcasting: arrays of equal length
    pair up, an array of length one is repeated, anything else is a
    [ValueError]. *)
Definition map2 (f : float -> float -> float) (a b : list float)
    : result (list float) :=
  if List.length a =? List.length b
  then Ok (map (fun '(x, y) => f x y) (combine a b))
  else if List.length a =? 1
  then Ok (map (f (hd 0%float a)) b)
  else if List.length b =? 1
  then Ok (map (fun x => f x (hd 0%float b)) a)
  else Raise ValueError.

Definition add (a b : list float) : result (list float) :=
  map2 PrimFloat.add a b.

(** [a += b], in place: [b] is broadcast to the length of [a]. *)
Definition iadd (a b : list float) : result (list float) :=
  if List.length a =? List.length b
  then Ok (map (fun '(x, y) => (x + y)%float) (combine a b))
  else if List.length b =? 1
  then Ok (map (fun x => (x + hd 0%float b)%float) a)
  else Raise ValueError.

(** The order numpy sorts floats by: [nan] after everything else. *)
Definition lt (x y : float) : bool :=
  (x <? y)%float || (PrimFloat.is_nan y && negb (PrimFloat.is_nan x)).

Definition item (a : list float) (i : nat) : float := nth i a 0%float.

Fixpoint insert_by (a : list float) (i : nat) (sorted : list nat) : list nat :=
  match sorted with
  | [] => [i]
  | j :: r =>
      if lt (item a i) (item a j) then i :: sorted else j :: insert_by a i r
  end.

(** [a.argsort()]: the indices of [a] by ascending value.  numpy's default
    sort leaves the order of equal values open; this one keeps them in
    index order. *)
Definition argsort (a : list float) : list nat :=
  fold_left (fun sorted i => insert_by a i sorted) (seq 0 (List.length a)) [].

End Np.

(** [set] and [list(set)] of array indices.

    CPython keeps a set in a hash table and iterates it slot by slot.  An
    index hashes to itself and goes to the slot [hash & mask]; the table of
    a set built from a permutation of [range(n)] has more than [n] slots
    once the last element is in (it is resized before it is three fifths
    full, and every resize re-inserts the elements), so that each index [i]
    sits in slot [i] and the iteration yields the indices in ascending
    order, whatever the order they were added in.  The set is therefore
    kept as the ascending list of its elements. *)
Module PySet.

Definition t : Type := list nat.

Fixpoint add (x : nat) (s : t) : t :=
  match s with
  | [] => [x]
  | y :: r =>
      if x <? y then x :: s
      else if x =? y then s
      else y :: add x r
  end.

(** [set(iterable)] *)
Definition of_list (l : list nat) : t := fold_left (fun s x => add x s) l [].

(** [list(s)] *)
Definition to_list (s : t) : list nat := s.

End PySet.

(** The hash table of CPython's [setobject.c], for sets of indices that
    nothing is removed from: [set_add_entry] with its linear probes and
    its perturbed jumps, and [set_table_resize].  It serves to run the
    iteration order of a set on given lists and to compare it with
    [PySet]. *)
Module CPythonSet.

Definition LINEAR_PROBES : nat := 9.
Definition PERTURB_SHIFT : nat := 5.
Definition PySet_MINSIZE : nat := 8.

(** The slots of the table; [fill] is the number of the slots in use. *)
Record t : Type := mkSet {
  table : list (option nat);
  fill : nat
}.

Definition empty : t := mkSet (repeat None PySet_MINSIZE) 0.

(** The entries [i], [i + 1], ..., [i + probes]: the first of them that is
    unused, or that holds [key]. *)
Fixpoint probe (tbl : list (option nat)) (key i probes : nat) : option (nat * bool) :=
  match nth i tbl None with
  | None => Some (i, false)
  | Some k =>
      if k =? key then Some (i, true)
      else match probes with
           | 0 => None
           | S p => probe tbl key (S i) p
           end
  end.

(** The slot of [key]: the loop of [set_add_entry], cut off after [fuel]
    jumps. *)
Fixpoint find_slot (fuel : nat) (tbl : list (option nat)) (key i perturb : nat)
    : option (nat * bool) :=
  match fuel with
  | 0 => None
  | S fuel' =>
      let mask := List.length tbl - 1 in
      let probes := if i + LINEAR_PROBES <=? mask then LINEAR_PROBES else 0 in
      match probe tbl key i probes with
      | Some found => Some found
      | None =>
          let perturb := perturb / 2 ^ PERTURB_SHIFT in
          find_slot fuel' tbl key ((i * 5 + 1 + perturb) mod (mask + 1)) perturb
      end
  end.

Fixpoint put (tbl : list (option nat)) (i key : nat) : list (option nat) :=
  match tbl, i with
  | [], _ => []
  | _ :: r, 0 => Some key :: r
  | e :: r, S i' => e :: put r i' key
  end.

(** An index is its own hash. *)
Definition insert (tbl : list (option nat)) (key : nat) : list (option nat) :=
  match find_slot (4 * List.length tbl) tbl key
          (key mod List.length tbl) key with
  | Some (i, false) => put tbl i key
  | _ => tbl
  end.

Fixpoint grow (fuel newsize minused : nat) : nat :=
  match fuel with
  | 0 => newsize
  | S fuel' =>
      if newsize <=? minused then grow fuel' (2 * newsize) minused else newsize
  end.

Definition entries (tbl : list (option nat)) : list nat :=
  flat_map (fun e => match e with Some k => [k] | None => [] end) tbl.

(** [set_table_resize]: the entries go, slot by slot, into an empty table
    of the first power of two above [minused]. *)
Definition resize (s : t) (minused : nat) : t :=
  let newsize := grow (S minused) PySet_MINSIZE minused in
  mkSet (fold_left insert (entries (table s)) (repeat None newsize)) (fill s).

(** [set_add_entry] *)
Definition add (s : t) (key : nat) : t :=
  let tbl := table s in
  let mask := List.length tbl - 1 in
  match find_slot (4 * List.length tbl) tbl key (key mod (mask + 1)) key with
  | Some (i, false) =>
      let s' := mkSet (put tbl i key) (S (fill s)) in
      if fill s' * 5 <? mask * 3 then s'
      else resize s' (if (50000 <? N.of_nat (fill s'))%N
                      then fill s' * 2 else fill s' * 4)
  | _ => s
  end.

(** [set(iterable)] and [list(s)] *)
Definition of_list (l : list nat) : t := fold_left add l empty.

Definition to_list (s : t) : list nat := entries (table s).

End CPythonSet.

(** [range(n)] with the indices of a same residue modulo [m] together:
    added in this order, they meet in the slots of a table of [m] slots. *)
Definition by_residue (m n : nat) : list nat :=
  flat_map (fun r => filter (fun i => i mod m =? r) (seq 0 n)) (seq 0 m).

Fixpoint list_eq_nat (l1 l2 : list nat) : bool :=
  match l1, l2 with
  | [], [] => true
  | x :: r1, y :: r2 => (x =? y) && list_eq_nat r1 r2
  | _, _ => false
  end.

(** ** The scoring libraries

    [rank_bm25.BM25Okapi] and scikit-learn's [TfidfVectorizer] and
    [cosine_similarity] are library code.  Their formulas are written out
    over binary64 floats; the natural logarithm of the C library is the
    section variable [log], and scikit-learn's table of English stop words
    the section variable [ENGLISH_STOP_WORDS]. *)

Module BM25.

(** The state of a [BM25Okapi] object. *)
Record index : Type := mkIndex {
  k1 : float;
  b : float;
  epsilon : float;
  corpus_size : nat;
  avgdl : float;
  doc_freqs : list (Dict.t nat);
  idf : Dict.t float;
  doc_len : list nat;
  average_idf : float
}.

Section WithLog.

Variable log : float -> float.

(** The [frequencies] of one document in [_initialize]. *)
Definition frequencies (document : list string) : Dict.t nat :=
  fold_left Dict.incr document [].

(** [nd]: for every word, the number of documents it occurs in. *)
Definition document_counts (freqs : list (Dict.t nat)) : Dict.t nat :=
  fold_left (fun nd fr => fold_left Dict.incr (Dict.keys fr) nd) freqs [].

(** Modelled from the spec: [BM25Okapi] is rank_bm25's class, not under
    [src/]; section 4.3 has the index built once from the tokens of every
    chunk, in chunk order.  The constructor with the default [k1], [b] and
    [epsilon] runs [_initialize], whose [num_doc / corpus_size] divides by
    zero on an empty corpus, then [_calc_idf], whose
    [idf_sum / len(self.idf)] divides by zero when no document has a
    word. *)
Definition BM25Okapi (corpus : list (list string)) : result index :=
  let doc_len := map (@List.length string) corpus in
  let num_doc := list_sum doc_len in
  let doc_freqs := map frequencies corpus in
  let nd := document_counts doc_freqs in
  let corpus_size := List.length corpus in
  if corpus_size =? 0 then Raise ZeroDivisionError else
  let avgdl := (Np.float_of_nat num_doc / Np.float_of_nat corpus_size)%float in
  let idf :=
    map (fun '(word, freq) =>
           (word,
            (log (Np.float_of_nat (corpus_size - freq) + 0.5)
             - log (Np.float_of_nat freq + 0.5))%float))
        nd in
  let idf_sum := fold_left PrimFloat.add (Dict.values idf) 0%float in
  if List.length idf =? 0 then Raise ZeroDivisionError else
  let average_idf := (idf_sum / Np.float_of_nat (List.length idf))%float in
  let eps := (0.25 * average_idf)%float in
  let idf :=
    map (fun '(word, v) => (word, if (v <? 0)%float then eps else v)) idf in
  Ok (mkIndex 1.5 0.75 0.25 corpus_size avgdl doc_freqs idf doc_len average_idf).

(** The summand of [get_scores] for one query word and one document, of
    which the word has frequency [q_freq] and which has [len] words. *)
Definition idf_of (ix : index) (q : string) : float :=
  match Dict.get (idf ix) q with Some v => v | None => 0%float end.

Definition length_norm (ix : index) (len : nat) : float :=
  (k1 ix * (1 - b ix + b ix * Np.float_of_nat len / avgdl ix))%float.

Definition term_score (ix : index) (q : string) (q_freq len : nat) : float :=
  (idf_of ix q
   * (Np.float_of_nat q_freq * (k1 ix + 1)
      / (Np.float_of_nat q_freq + length_norm ix len)))%float.

Definition get_freq (doc : Dict.t nat) (q : string) : nat :=
  match Dict.get doc q with Some n => n | None => 0 end.

(** The body of the loop of [get_scores] for the query word [q]:
    [score += idf[q] * (q_freq * (k1 + 1) / (q_freq + k1 * (1 - b + b *
    doc_len / avgdl)))], elementwise on [q_freq], the array of the word's
    frequencies in the documents, and on the array of the document
    lengths. *)
Definition add_word (ix : index) (score : list float) (q : string)
    : result (list float) :=
  let q_freq := map (fun doc => Np.float_of_nat (get_freq doc q)) (doc_freqs ix) in
  denominator <- Np.add q_freq (map (length_norm ix) (doc_len ix)) ;;
  quotient <- Np.map2 PrimFloat.div
                (Np.scale q_freq (k1 ix + 1)%float) denominator ;;
  Np.iadd score (map (fun x => (idf_of ix q * x)%float) quotient).

(** Modelled from the spec: [index.get_scores(query)] is rank_bm25's, not
    under [src/]; section 4.3 has it return one score per chunk, in the
    order of the indexed chunks, from the term frequencies, the inverse
    document frequencies and the chunk lengths.  It starts from an array
    of [corpus_size] zeros, to which every query word adds its summands. *)
Definition get_scores (ix : index) (query : list string) : result (list float) :=
  fold_left (fun score q => score <- score ;; add_word ix score q)
            query (Ok (Np.zeros (corpus_size ix))).

End WithLog.

End BM25.

Module Tfidf.

Section WithLibraries.

Variable log : float -> float.
Variable ENGLISH_STOP_WORDS : list string.

Definition lower (doc : string) : string :=
  string_of_list_ascii (Text.str_lower (list_ascii_of_string doc)).

(** The analyzer of [TfidfVectorizer(tokenizer=clean_and_tokenize,
    lowercase=True, stop_words="english")]: lower-case, tokenize, drop the
    stop words. *)
Definition analyzer (doc : string) : list string :=
  filter (fun w => negb (existsb (String.eqb w) ENGLISH_STOP_WORDS))
         (clean_and_tokenize (lower doc)).

Fixpoint insert_term (w : string) (sorted : list string) : list string :=
  match sorted with
  | [] => [w]
  | v :: r =>
      if String.ltb w v then w :: sorted
      else if String.eqb w v then sorted
      else v :: insert_term w r
  end.

(** The fitted [vocabulary_]: the distinct terms of the documents, sorted. *)
Definition vocabulary (raw_documents : list string) : list string :=
  fold_left (fun voc w => insert_term w voc) (flat_map analyzer raw_documents) [].

Definition count (w : string) (tokens : list string) : nat :=
  List.length (filter (String.eqb w) tokens).

(** The fitted vectorizer: the vocabulary and its smoothed [idf_]. *)
Record vectorizer : Type := mkVectorizer {
  vocabulary_ : list string;
  idf_ : list float
}.

(** [smooth_idf]: [log((1 + n) / (1 + df)) + 1]. *)
Definition fit (raw_documents : list string) : result vectorizer :=
  let voc := vocabulary raw_documents in
  if List.length voc =? 0 then Raise ValueError else
  let analyzed := map analyzer raw_documents in
  let n_samples := List.length raw_documents in
  let df w := List.length (filter (fun toks => existsb (String.eqb w) toks) analyzed) in
  Ok (mkVectorizer voc
        (map (fun w => (log (Np.float_of_nat (n_samples + 1)
                             / Np.float_of_nat (df w + 1)) + 1)%float) voc)).

(** [sklearn.preprocessing.normalize] of one row, in the Euclidean norm;
    a row of norm zero is left as it is. *)
Definition normalize (row : list float) : list float :=
  let norm := PrimFloat.sqrt (fold_left (fun s x => (s + x * x)%float) row 0%float) in
  if (norm =? 0)%float then row else map (fun x => (x / norm)%float) row.

(** The row of one document: [sublinear_tf] weights [1 + log(tf)] times
    the idf, normalized. *)
Definition transform_one (v : vectorizer) (doc : string) : list float :=
  let tokens := analyzer doc in
  normalize
    (map (fun '(w, idf_w) =>
            let tf := count w tokens in
            if tf =? 0 then 0%float
            else ((log (Np.float_of_nat tf) + 1) * idf_w)%float)
         (combine (vocabulary_ v) (idf_ v))).

(** [vectorizer.transform(raw_documents)]: one row per document. *)
Definition transform (v : vectorizer) (raw_documents : list string)
    : list (list float) :=
  map (transform_one v) raw_documents.

(** Modelled from the spec: [fit_transform] is scikit-learn's, not under
    [src/]; section 4.4 has the vector space built from the text of every
    chunk, with smoothed inverse document frequencies, sublinear term
    frequencies and without the English stop words.  An empty vocabulary
    is a [ValueError]. *)
Definition fit_transform (raw_documents : list string)
    : result (vectorizer * list (list float)) :=
  v <- fit raw_documents ;;
  Ok (v, transform v raw_documents).

Definition dot (x y : list float) : float :=
  fold_left (fun s '(a, c) => (s + a * c)%float) (combine x y) 0%float.

(** Modelled from the spec: [cosine_similarity] is scikit-learn's, not
    under [src/]; section 4.4 has it give the similarity of the query
    vector with every chunk vector, in chunk order.  Entry [(i, j)] is the
    dot product of the normalized rows [X[i]] and [Y[j]]. *)
Definition cosine_similarity (X Y : list (list float)) : list (list float) :=
  map (fun x => map (fun y => dot (normalize x) (normalize y)) Y) X.

(** [matrix.flatten()] *)
Definition flatten (m : list (list float)) : list float := List.concat m.

End WithLibraries.

End Tfidf.

(** ** The chunker *)

Module Splitter.

(** The end of the last line among the first characters of the text:
    [best] is the position after the last line feed seen so far. *)
Fixpoint last_break (pos : nat) (best : option nat) (w : list ascii) : option nat :=
  match w with
  | [] => best
  | c :: r =>
      last_break (S pos) (if Text.code c =? 10 then Some (S pos) else best) r
  end.

(** Where the first chunk of a long text ends: after the last line break
    of the first [chunk_size] characters when that leaves more than the
    overlap, and at [chunk_size] otherwise. *)
Definition cut_point (chunk_size chunk_overlap : nat) (text : list ascii) : nat :=
  match last_break 0 None (firstn chunk_size text) with
  | Some p => if chunk_overlap <? p then p else chunk_size
  | None => chunk_size
  end.

Fixpoint split_from (fuel chunk_size chunk_overlap : nat) (text : list ascii)
    : list (list ascii) :=
  match fuel with
  | 0 => [text]
  | S fuel' =>
      if List.length text <=? chunk_size then [text]
      else
        let cut := cut_point chunk_size chunk_overlap text in
        firstn cut text
        :: split_from fuel' chunk_size chunk_overlap (skipn (cut - chunk_overlap) text)
  end.

(** Modelled from the spec: [text_splitter.split_documents] belongs to
    langchain's [RecursiveCharacterTextSplitter], which is not under
    [src/].  Section 4.2 of the specification: the chunks cover the whole
    content in order, each is at most [chunk_size] long, consecutive chunks
    overlap by at most [chunk_overlap], a chunk ends at a line break where
    one is at hand and at a hard cut otherwise, and a document no longer
    than [chunk_size] is one chunk, equal to the document. *)
Definition split_text (chunk_size chunk_overlap : nat) (text : string) : list string :=
  map string_of_list_ascii
      (split_from (String.length text) chunk_size chunk_overlap
                  (list_ascii_of_string text)).

(** [split_documents(documents)]: every chunk is a new [Document] with a
    copy of the metadata of the document it comes from. *)
Definition split_documents (chunk_size chunk_overlap : nat) (documents : list Document)
    : list Document :=
  flat_map
    (fun doc =>
       map (fun chunk => mkDocument chunk (source doc) (file_id doc))
           (split_text chunk_size chunk_overlap (page_content doc)))
    documents.

End Splitter.

(** ** [src/file_processing.py] *)

(** A file as a loader returns it: its text and the path it was read from. *)
Record File : Type := mkFile {
  file_text : string;
  file_path : string
}.

(** What [load_and_index_files] asks of its environment: [load ext] is
    [loader.load()] for the files of extension [ext], which may raise;
    [relpath] is [os.path.relpath(_, repo_path)]; [uuid4 n] is the
    identifier of the [n]-th call of [uuid.uuid4()]. *)
Record Repository : Type := mkRepository {
  load : string -> result (list File);
  relpath : string -> string;
  uuid4 : nat -> string
}.

Local Open Scope string_scope.

Definition extensions : list string :=
  [ "txt"; "md"; "markdown"; "rst"; "py"; "js"; "java"; "c"; "cpp"; "cs";
    "go"; "rb"; "php"; "scala"; "html"; "htm"; "xml"; "json"; "yaml"; "yml";
    "ini"; "toml"; "cfg"; "conf"; "sh"; "bash"; "css"; "scss"; "sql";
    "gitignore"; "dockerignore"; "editorconfig"; "ipynb" ].

Local Close Scope string_scope.

(** The state of the loading loop: [file_type_counts], [documents_dict]
    and the number of identifiers drawn so far. *)
Definition loading : Type := (Dict.t nat * Dict.t Document * nat)%type.

(** The body of [for doc in loaded_documents]. *)
Definition add_document (repo : Repository) (st : Dict.t Document * nat) (doc : File)
    : Dict.t Document * nat :=
  let '(documents_dict, drawn) := st in
  let relative_path := relpath repo (file_path doc) in
  let file_id := uuid4 repo drawn in
  (Dict.set documents_dict file_id (mkDocument (file_text doc) relative_path file_id),
   S drawn).

(** The body of [for ext in extensions]; a loader that raises leaves the
    state as it is. *)
Definition load_extension (repo : Repository) (st : loading) (ext : string) : loading :=
  let '(file_type_counts, documents_dict, drawn) := st in
  match load repo ext with
  | Raise _ => st
  | Ok [] => st
  | Ok loaded_documents =>
      let file_type_counts :=
        Dict.set file_type_counts ext (List.length loaded_documents) in
      let '(documents_dict, drawn) :=
        fold_left (add_document repo) loaded_documents (documents_dict, drawn) in
      (file_type_counts, documents_dict, drawn)
  end.

(** The loading loop of [load_and_index_files]. *)
Definition load_all (repo : Repository) : loading :=
  fold_left (load_extension repo) extensions ([], [], 0).

Section Engine.

Variable log : float -> float.
Variable ENGLISH_STOP_WORDS : list string.

(** [load_and_index_files(repo_path)] *)
Definition load_and_index_files (repo : Repository)
    : result (option BM25.index * list Document * Dict.t nat * list string) :=
  let '(file_type_counts, documents_dict, _) := load_all repo in
  let split_documents :=
    flat_map
      (fun original_doc =>
         let split_docs := Splitter.split_documents 3000 200 [original_doc] in
         map (fun split_doc =>
                mkDocument (page_content split_doc)
                           (source original_doc) (file_id original_doc))
             split_docs)
      (Dict.values documents_dict) in
  index <-
    match split_documents with
    | [] => Ok None
    | _ =>
        let tokenized_documents :=
          map (fun doc => clean_and_tokenize (page_content doc)) split_documents in
        index <- BM25.BM25Okapi log tokenized_documents ;;
        Ok (Some index)
    end ;;
  Ok (index, split_documents, file_type_counts, map source split_documents).

(** The values [search_documents] computes on its way. *)
Record ranking : Type := mkRanking {
  bm25_scores : list float;
  cosine_sim_scores : list float;
  combined_scores : list float;
  unique_top_document_indices : list nat
}.

(** [documents[i]] *)
Definition getitem (documents : list Document) (i : nat) : result Document :=
  match nth_error documents i with
  | Some doc => Ok doc
  | None => Raise IndexError
  end.

Fixpoint traverse {A B : Type} (f : A -> result B) (l : list A) : result (list B) :=
  match l with
  | [] => Ok []
  | a :: r => x <- f a ;; xs <- traverse f r ;; Ok (x :: xs)
  end.

(** The body of [search_documents] up to the selection of the indices,
    with the sort that [argsort] stands for as an argument; an [index]
    that is [None] has no [get_scores].  [n_results], "the number of
    results to return", is a natural number. *)
Definition rank_documents (sort : list float -> list nat)
    (query : string) (index : option BM25.index) (documents : list Document)
    (n_results : nat) : result ranking :=
  let query_tokens := clean_and_tokenize query in
  index <- match index with
           | Some ix => Ok ix
           | None => Raise AttributeError
           end ;;
  bm25_scores <- BM25.get_scores index query_tokens ;;
  fitted <- Tfidf.fit_transform log ENGLISH_STOP_WORDS (map page_content documents) ;;
  let '(tfidf_vectorizer, tfidf_matrix) := fitted in
  let query_tfidf := Tfidf.transform log ENGLISH_STOP_WORDS tfidf_vectorizer [query] in
  let cosine_sim_scores :=
    Tfidf.flatten (Tfidf.cosine_similarity query_tfidf tfidf_matrix) in
  combined_scores <- Np.add (Np.scale bm25_scores 0.5) (Np.scale cosine_sim_scores 0.5) ;;
  let unique_top_document_indices :=
    firstn n_results (PySet.to_list (PySet.of_list (rev (sort combined_scores)))) in
  Ok (mkRanking bm25_scores cosine_sim_scores combined_scores
                unique_top_document_indices).

Definition search_documents_by (sort : list float -> list nat)
    (query : string) (index : option BM25.index) (documents : list Document)
    (n_results : nat) : result (list Document) :=
  r <- rank_documents sort query index documents n_results ;;
  traverse (getitem documents) (unique_top_document_indices r).

(** [search_documents(query, index, documents, n_results)] *)
Definition search_documents
    (query : string) (index : option BM25.index) (documents : list Document)
    (n_results : nat) : result (list Document) :=
  search_documents_by Np.argsort query index documents n_results.

End Engine.

(** ** The gate of [app.py]

    [main] searches only with an index: when [load_and_index_files] returns
    [None] for it, the program prints that no documents were found and
    exits before the first question. *)
Inductive session : Type :=
  | Exiting
  | Asking (index : BM25.index) (documents : list Document).

Definition start_session
    (loaded : option BM25.index * list Document * Dict.t nat * list string) : session :=
  let '(index, documents, _, _) := loaded in
  match index with
  | None => Exiting
  | Some ix => Asking ix documents
  end.

(** ** An instance of the libraries, to run the definitions *)

Module Instance.

(** A natural logarithm on binary64: the argument is scaled into
    [sqrt(1/2), sqrt(2)) and the series of [2 atanh z], with
    [z = (m - 1) / (m + 1)], is summed.  It is exact at 1. *)
Definition libm_log (x : float) : float :=
  if PrimFloat.is_nan x || (x <? 0)%float then PrimFloat.nan
  else if (x =? 0)%float then PrimFloat.neg_infinity
  else if PrimFloat.is_infinity x then x
  else
    let '(m, e) := FloatOps.Z.frexp x in
    let '(m, e) :=
      if (m <? 0x1.6a09e667f3bcdp-1)%float then ((m * 2)%float, (e - 1)%Z) else (m, e) in
    let z := ((m - 1) / (m + 1))%float in
    let z2 := (z * z)%float in
    let poly :=
      fold_right (fun k acc => (1 / Np.float_of_nat k + z2 * acc)%float) 0%float
                 [1; 3; 5; 7; 9; 11; 13; 15; 17; 19; 21; 23; 25] in
    let ef :=
      if (e <? 0)%Z then (- Np.float_of_nat (Z.to_nat (- e)))%float
      else Np.float_of_nat (Z.to_nat e) in
    (ef * 0x1.62e42fefa39efp-1 + 2 * z * poly)%float.

Local Open Scope string_scope.

(** Some of scikit-learn's English stop words. *)
Definition stop_words : list string :=
  [ "a"; "about"; "after"; "all"; "also"; "an"; "and"; "any"; "are"; "as";
    "at"; "be"; "because"; "been"; "but"; "by"; "can"; "could"; "do"; "for";
    "from"; "had"; "has"; "have"; "he"; "her"; "his"; "how"; "i"; "if"; "in";
    "into"; "is"; "it"; "its"; "me"; "more"; "most"; "my"; "no"; "not"; "of";
    "on"; "or"; "our"; "she"; "so"; "some"; "than"; "that"; "the"; "their";
    "them"; "then"; "there"; "these"; "they"; "this"; "to"; "up"; "was";
    "we"; "were"; "what"; "when"; "which"; "who"; "will"; "with"; "would";
    "you"; "your" ].

(** The two chunks of the end-to-end example of the specification. *)
Definition chunk_a : Document :=
  mkDocument "The quick brown fox jumps" "a.py" "file-a".

Definition chunk_b : Document :=
  mkDocument "A completely unrelated sentence about oceans" "b.py" "file-b".

(** The corpus [load_and_index_files] indexes for a list of chunks. *)
Definition corpus_of (documents : list Document) : list (list string) :=
  map (fun doc => clean_and_tokenize (page_content doc)) documents.

Definition index_of (documents : list Document) : BM25.index :=
  match BM25.BM25Okapi libm_log (corpus_of documents) with
  | Ok ix => ix
  | Raise _ => BM25.mkIndex 1.5 0.75 0.25 0 0 [] [] [] 0
  end.

(** The indices of the corpus [[chunk_a; chunk_b]] and of the corpus
    [[chunk_b; chunk_a]]. *)
Definition index_ab :=
  Eval vm_compute in index_of [chunk_a; chunk_b].

Definition index_ba :=
  Eval vm_compute in index_of [chunk_b; chunk_a].

(** What [search_documents] computes for the query "quick fox" on the
    corpus [[chunk_b; chunk_a]]. *)
Definition ranking_ba :=
  Eval vm_compute in
    match rank_documents libm_log stop_words Np.argsort "quick fox"
            (Some index_ba) [chunk_b; chunk_a] 5 with
    | Ok r => r
    | Raise _ => mkRanking [] [] [] []
    end.

(** Four chunks, one of which repeats a word that no other chunk has, and
    what [search_documents] computes on them for the query "fox". *)
Definition chunk_fox : Document := mkDocument "fox fox fox" "fox.py" "file-1".

Definition four_chunks : list Document :=
  [ chunk_fox; mkDocument "sea" "sea.py" "file-2";
    mkDocument "sky" "sky.py" "file-3"; mkDocument "sun" "sun.py" "file-4" ].

Definition index_four :=
  Eval vm_compute in index_of four_chunks.

Definition ranking_four :=
  Eval vm_compute in
    match rank_documents libm_log stop_words Np.argsort "fox"
            (Some index_four) four_chunks 5 with
    | Ok r => r
    | Raise _ => mkRanking [] [] [] []
    end.

(** A repository without a file of any of the extensions. *)
Definition empty_repository : Repository :=
  mkRepository (fun _ => Ok []) (fun path => path) (fun n => str_of_nat n).

(** A repository of one text file of 4000 characters, in lines of 40. *)
Definition line : string := "alpha beta gamma delta epsilon zeta eta" ++ newline.

Definition long_file : Repository :=
  mkRepository
    (fun ext => if String.eqb ext "txt"
                then Ok [ mkFile (String.concat "" (repeat line 100)) "notes/big.txt" ]
                else Ok [])
    (fun path => path)
    (fun n => ("uuid-" ++ str_of_nat n)%string).

(** The index and the chunks [load_and_index_files] returns for it. *)
Definition long_file_index :=
  Eval vm_compute in
    match load_and_index_files libm_log long_file with
    | Ok (index, _, _, _) => index
    | Raise _ => None
    end.

Definition long_file_chunks :=
  Eval vm_compute in
    match load_and_index_files libm_log long_file with
    | Ok (_, split_documents, _, _) => split_documents
    | Raise _ => []
    end.

End Instance.

(** ** What the claims speak of *)

(** A character a token may be made of: a word character that is no
    decimal digit, no upper-case letter and no white space. *)
Definition token_char (c : ascii) : bool :=
  Text.is_word c && negb (Text.is_decimal c)
  && (Text.lower c =? c)%char && negb (Text.is_space c).






(** A sort of indices: what [argsort] may return, whatever it does with
    equal values. *)
Definition is_argsort (sort : list float -> list nat) : Prop :=
  forall a, Permutation (sort a) (seq 0 (List.length a)).

(** The sequence of the chunks with the indices [indices] is in ranked
    order for the scores [scores]: no chunk has a lower score than the
    next one. *)
Fixpoint ranked_order (scores : list float) (indices : list nat) : bool :=
  match indices with
  | i :: ((j :: _) as rest) =>
      (Np.item scores j <=? Np.item scores i)%float && ranked_order scores rest
  | _ => true
  end.

(** The lexical score of one chunk, of word frequencies [freqs] and of
    [len] words, for a query. *)
Definition chunk_bm25 (ix : BM25.index) (query : list string)
    (freqs : Dict.t nat) (len : nat) : float :=
  fold_left
    (fun s q => (s + BM25.term_score ix q (BM25.get_freq freqs q) len)%float)
    query 0%float.

(** The vector-space score of one chunk of text [text] for a query. *)
Definition chunk_cosine (log : float -> float) (stop_words : list string)
    (v : Tfidf.vectorizer) (query text : string) : float :=
  Tfidf.dot (Tfidf.normalize (Tfidf.transform_one log stop_words v query))
            (Tfidf.normalize (Tfidf.transform_one log stop_words v text)).

(** The line of the context for the chunk of rank [rank], in the words of
    section 4.6 of the specification. *)
Definition render_chunk (rank : nat) (chunk : Document) : string :=
  (str_of_nat rank ++ ". " ++ basename (source chunk) ++ ": "
   ++ page_content chunk)%string.

(** The lines of a ranked sequence whose first chunk has rank [rank]. *)
Fixpoint render_ranked (rank : nat) (chunks : list Document) : list string :=
  match chunks with
  | [] => []
  | chunk :: rest => render_chunk rank chunk :: render_ranked (S rank) rest
  end.

(** The documents of [documents_dict] when the loading loop is over. *)
Definition loaded_documents (repo : Repository) : list Document :=
  Dict.values (snd (fst (load_all repo))).

(** The chunks of one loaded document. *)
Definition chunks_of (original_doc : Document) : list Document :=
  map (fun chunk => mkDocument chunk (source original_doc) (file_id original_doc))
      (Splitter.split_text 3000 200 (page_content original_doc)).

(** A score array normalized to the unit interval: every entry lies
    between 0 and 1. *)
Definition within_unit (scores : list float) : bool :=
  forallb (fun x => (0 <=? x)%float && (x <=? 1)%float) scores.

(** * Properties *)

(** ** The normalizer *)

Section Normalizer.

Import Text.




Lemma token_char_not_space (c : ascii) :
  token_char c = true -> is_space c = false.
Proof.
  unfold token_char. intros H.
  apply andb_true_iff in H. destruct H as [_ H].
  apply negb_true_iff in H. exact H.
Qed.






End Normalizer.





(** ** Sets of indices, sorting and selection *)


Section Selection.

Lemma pyset_add_In (x y : nat) (s : PySet.t) :
  In y (PySet.add x s) <-> y = x \/ In y s.
Proof.
  induction s as [| z r IH]; simpl.
  - intuition.
  - destruct (x <? z) eqn:Hlt; [simpl; intuition |].
    destruct (x =? z) eqn:Heq.
    + apply Nat.eqb_eq in Heq. subst z. simpl. intuition.
    + simpl. rewrite IH. intuition.
Qed.

Lemma pyset_add_sorted (x : nat) (s : PySet.t) :
  StronglySorted lt s -> StronglySorted lt (PySet.add x s).
Proof.
  induction 1 as [| z r Hr IH Hz]; simpl.
  - constructor; constructor.
  - destruct (x <? z) eqn:Hlt.
    + apply Nat.ltb_lt in Hlt. constructor.
      * constructor; assumption.
      * constructor; [exact Hlt |].
        rewrite Forall_forall in *. intros y Hy. specialize (Hz y Hy). lia.
    + destruct (x =? z) eqn:Heq.
      * constructor; assumption.
      * apply Nat.ltb_ge in Hlt. apply Nat.eqb_neq in Heq.
        constructor; [exact IH |].
        rewrite Forall_forall in *. intros y Hy.
        apply pyset_add_In in Hy. destruct Hy as [-> | Hy]; [lia | auto].
Qed.

Lemma pyset_of_list_acc (l : list nat) (acc : PySet.t) :
  StronglySorted lt acc ->
  StronglySorted lt (fold_left (fun s x => PySet.add x s) l acc)
  /\ forall y, In y (fold_left (fun s x => PySet.add x s) l acc)
               <-> In y l \/ In y acc.
Proof.
  revert acc. induction l as [| x r IH]; intros acc Hacc; simpl.
  - split; [exact Hacc | intuition].
  - destruct (IH (PySet.add x acc) (pyset_add_sorted x acc Hacc)) as [Hs Hin].
    split; [exact Hs |].
    intros y. rewrite Hin, pyset_add_In. intuition.
Qed.

Lemma sorted_unique (l1 l2 : list nat) :
  StronglySorted lt l1 -> StronglySorted lt l2 ->
  (forall y, In y l1 <-> In y l2) -> l1 = l2.
Proof.
  intros H1. revert l2.
  induction H1 as [| a r1 Hr1 IH Ha]; intros l2 H2 Hiff.
  - destruct l2 as [| b r2]; [reflexivity |].
    exfalso. apply (proj2 (Hiff b)). left. reflexivity.
  - destruct H2 as [| b r2 Hr2 Hb].
    + exfalso. apply (proj1 (Hiff a)). left. reflexivity.
    + rewrite Forall_forall in Ha, Hb.
      assert (Hab : a = b).
      { destruct (proj1 (Hiff a) (or_introl eq_refl)) as [E | Hin1];
          [congruence |].
        destruct (proj2 (Hiff b) (or_introl eq_refl)) as [E | Hin2];
          [congruence |].
        specialize (Hb a Hin1). specialize (Ha b Hin2). lia. }
      subst b. f_equal. apply IH; [exact Hr2 |].
      intros y. split; intros Hy.
      * destruct (proj1 (Hiff y) (or_intror Hy)) as [E | Hin]; [| exact Hin].
        subst y. specialize (Ha a Hy). lia.
      * destruct (proj2 (Hiff y) (or_intror Hy)) as [E | Hin]; [| exact Hin].
        subst y. specialize (Hb a Hy). lia.
Qed.

Lemma seq_sorted (a n : nat) : StronglySorted lt (seq a n).
Proof.
  revert a. induction n as [| n IH]; intros a; simpl; constructor.
  - apply IH.
  - apply Forall_forall. intros y Hy. apply in_seq in Hy. lia.
Qed.

(** [list(set(l))] of a permutation of [range(n)] is [range(n)]. *)
Lemma list_set_permutation (l : list nat) (n : nat) :
  Permutation l (seq 0 n) ->
  PySet.to_list (PySet.of_list l) = seq 0 n.
Proof.
  intros Hp. unfold PySet.to_list, PySet.of_list.
  destruct (pyset_of_list_acc l [] (SSorted_nil lt)) as [Hs Hin].
  apply sorted_unique; [exact Hs | apply seq_sorted |].
  intros y. rewrite Hin. split.
  - intros [Hy | []]. apply (Permutation_in _ Hp Hy).
  - intros Hy. left. apply (Permutation_in _ (Permutation_sym Hp) Hy).
Qed.

Lemma insert_by_permutation (a : list float) (i : nat) (sorted : list nat) :
  Permutation (Np.insert_by a i sorted) (i :: sorted).
Proof.
  induction sorted as [| j r IH]; simpl.
  - apply Permutation_refl.
  - destruct (Np.lt (Np.item a i) (Np.item a j)).
    + apply Permutation_refl.
    + apply perm_trans with (j :: i :: r).
      * apply perm_skip. exact IH.
      * apply perm_swap.
Qed.

(** [argsort] returns a permutation of the indices of its array. *)
Lemma argsort_permutation (a : list float) :
  Permutation (Np.argsort a) (seq 0 (List.length a)).
Proof.
  unfold Np.argsort.
  assert (H : forall l acc,
             Permutation
               (fold_left (fun sorted i => Np.insert_by a i sorted) l acc)
               (l ++ acc)).
  { induction l as [| i r IH]; intros acc; simpl.
    - apply Permutation_refl.
    - apply perm_trans with (r ++ Np.insert_by a i acc); [apply IH |].
      apply perm_trans with (r ++ i :: acc).
      + apply Permutation_app_head. apply insert_by_permutation.
      + apply Permutation_sym. apply Permutation_middle. }
  specialize (H (seq 0 (List.length a)) []).
  rewrite app_nil_r in H. exact H.
Qed.

End Selection.

(** The hash table of CPython run on permutations of [range(n)], for
    every [n] up to 100: descending, ascending, the odd indices before the
    even ones, and the indices that collide in a table of 8 and of 32
    slots next to each other.  The iteration order is the ascending one of
    [PySet] each time. *)
Lemma cpython_set_order_checked :
  forallb
    (fun n =>
       forallb
         (fun l =>
            list_eq_nat (CPythonSet.to_list (CPythonSet.of_list l))
                        (PySet.to_list (PySet.of_list l))
            && list_eq_nat (CPythonSet.to_list (CPythonSet.of_list l)) (seq 0 n))
         [ rev (seq 0 n); seq 0 n;
           filter Nat.odd (seq 0 n) ++ filter Nat.even (seq 0 n);
           by_residue 8 n; rev (by_residue 8 n); by_residue 32 n ])
    (seq 0 101)
  = true.
Proof. vm_compute. reflexivity. Qed.

(** ** The score arrays *)

Section Scores.

Variable log : float -> float.
Variable ENGLISH_STOP_WORDS : list string.

(** The fields of an index that [BM25Okapi] has built. *)
Lemma BM25Okapi_fields (corpus : list (list string)) (ix : BM25.index) :
  BM25.BM25Okapi log corpus = Ok ix ->
  corpus <> []
  /\ BM25.corpus_size ix = List.length corpus
  /\ BM25.doc_freqs ix = map BM25.frequencies corpus
  /\ BM25.doc_len ix = map (@List.length string) corpus.
Proof.
  unfold BM25.BM25Okapi. intros H.
  destruct (List.length corpus =? 0) eqn:Hn; [discriminate |].
  match type of H with
  | (if ?c then _ else _) = _ => destruct c; [discriminate |]
  end.
  inversion H; subst; clear H. simpl.
  repeat split; auto.
  intros ->. discriminate.
Qed.

Lemma add_word_aligned (ix : BM25.index) (q : string) (score : list float) :
  List.length (BM25.doc_freqs ix) = List.length score ->
  List.length (BM25.doc_len ix) = List.length score ->
  BM25.add_word ix score q
  = Ok (map (fun '(s, (freqs, len)) =>
               (s + BM25.term_score ix q (BM25.get_freq freqs q) len)%float)
            (combine score (combine (BM25.doc_freqs ix) (BM25.doc_len ix)))).
Proof.
  intros HF HD. unfold BM25.add_word, Np.add, Np.map2, Np.iadd, Np.scale.
  rewrite !length_map, HF, HD, Nat.eqb_refl. simpl.
  rewrite !length_map, length_combine, !length_map, HF, HD, Nat.min_id,
    Nat.eqb_refl. simpl.
  rewrite !length_map, !length_combine, !length_map, length_combine,
    !length_map, HF, HD, !Nat.min_id, Nat.eqb_refl.
  f_equal. unfold BM25.term_score.
  generalize dependent (BM25.doc_len ix).
  generalize dependent (BM25.doc_freqs ix).
  induction score as [| s score IH]; intros F HF D HD.
  - reflexivity.
  - destruct F as [| fr F]; [discriminate |].
    destruct D as [| len D]; [discriminate |].
    simpl. f_equal. apply IH; simpl in *; congruence.
Qed.

Lemma get_scores_from (ix : BM25.index) (query : list string)
    (start : Dict.t nat * nat -> float) :
  List.length (BM25.doc_freqs ix) = List.length (BM25.doc_len ix) ->
  fold_left (fun score q => score <- score ;; BM25.add_word ix score q) query
            (Ok (map start (combine (BM25.doc_freqs ix) (BM25.doc_len ix))))
  = Ok (map (fun p =>
               fold_left
                 (fun s q =>
                    (s + BM25.term_score ix q (BM25.get_freq (fst p) q) (snd p))%float)
                 query (start p))
            (combine (BM25.doc_freqs ix) (BM25.doc_len ix))).
Proof.
  intros HFD. revert start.
  induction query as [| q query IH]; intros start.
  - reflexivity.
  - simpl. rewrite add_word_aligned.
    + set (F := BM25.doc_freqs ix) in *. set (D := BM25.doc_len ix) in *.
      replace (map (fun '(s, (freqs, len)) =>
                      (s + BM25.term_score ix q (BM25.get_freq freqs q) len)%float)
                   (combine (map start (combine F D)) (combine F D)))
        with (map (fun p =>
                     (start p
                      + BM25.term_score ix q (BM25.get_freq (fst p) q) (snd p))%float)
                  (combine F D)).
      * apply (IH (fun p =>
                     (start p
                      + BM25.term_score ix q (BM25.get_freq (fst p) q) (snd p))%float)).
      * clear. induction (combine F D) as [| [fr len] l IHl]; simpl;
          [reflexivity |].
        f_equal. exact IHl.
    + rewrite length_map, length_combine. lia.
    + rewrite length_map, length_combine. lia.
Qed.

(** [get_scores] of an index that [BM25Okapi] has built does not raise and
    gives every document of the corpus, in order, its own score. *)
Lemma get_scores_aligned (corpus : list (list string)) (ix : BM25.index)
    (query : list string) :
  BM25.BM25Okapi log corpus = Ok ix ->
  BM25.get_scores ix query
  = Ok (map (fun doc =>
               chunk_bm25 ix query (BM25.frequencies doc) (List.length doc))
            corpus).
Proof.
  intros Hix. destruct (BM25Okapi_fields corpus ix Hix) as [_ [Hn [HF HD]]].
  unfold BM25.get_scores.
  assert (Hzeros : Np.zeros (BM25.corpus_size ix)
                   = map (fun _ => 0%float)
                         (combine (BM25.doc_freqs ix) (BM25.doc_len ix))).
  { rewrite Hn, HF, HD. unfold Np.zeros.
    clear. induction corpus as [| d c IH]; simpl; [reflexivity |].
    f_equal. exact IH. }
  rewrite Hzeros, get_scores_from.
  - f_equal. rewrite HF, HD. unfold chunk_bm25.
    clear. induction corpus as [| d c IH]; simpl; [reflexivity |].
    f_equal. exact IH.
  - rewrite HF, HD, !length_map. reflexivity.
Qed.

Lemma iadd_length (a c d : list float) :
  Np.iadd a c = Ok d -> List.length d = List.length a.
Proof.
  unfold Np.iadd. intros H.
  destruct (List.length a =? List.length c) eqn:E.
  - apply Nat.eqb_eq in E. inversion H; subst.
    rewrite length_map, length_combine. lia.
  - destruct (List.length c =? 1); [| discriminate].
    inversion H; subst. apply length_map.
Qed.

Lemma np_add_length (a c d : list float) :
  Np.add a c = Ok d ->
  (List.length a = List.length c /\ List.length d = List.length c)
  \/ (List.length a = 1 /\ List.length d = List.length c)
  \/ (List.length c = 1 /\ List.length d = List.length a).
Proof.
  unfold Np.add, Np.map2. intros H.
  destruct (List.length a =? List.length c) eqn:E.
  - apply Nat.eqb_eq in E. inversion H; subst. left.
    rewrite length_map, length_combine. lia.
  - destruct (List.length a =? 1) eqn:E1.
    + apply Nat.eqb_eq in E1. inversion H; subst. right. left.
      rewrite length_map. auto.
    + destruct (List.length c =? 1) eqn:E2; [| discriminate].
      apply Nat.eqb_eq in E2. inversion H; subst. right. right.
      rewrite length_map. auto.
Qed.

Lemma np_add_items (a c d : list float) :
  List.length a = List.length c ->
  Np.add (Np.scale a 0.5) (Np.scale c 0.5) = Ok d ->
  d = map (fun '(x, y) => (x * 0.5 + y * 0.5)%float) (combine a c).
Proof.
  intros Hlen. unfold Np.add, Np.map2, Np.scale.
  rewrite !length_map, Hlen, Nat.eqb_refl. intros H. inversion H; subst.
  clear H. revert c Hlen.
  induction a as [| x a IH]; intros [| y c] Hlen; try discriminate.
  - reflexivity.
  - simpl. f_equal. apply IH. simpl in Hlen. congruence.
Qed.

(** The cosine array has one entry per document, in order. *)
Lemma cosine_scores_aligned (v : Tfidf.vectorizer) (query : string)
    (documents : list Document) :
  Tfidf.flatten
    (Tfidf.cosine_similarity
       (Tfidf.transform log ENGLISH_STOP_WORDS v [query])
       (Tfidf.transform log ENGLISH_STOP_WORDS v (map page_content documents)))
  = map (fun doc => chunk_cosine log ENGLISH_STOP_WORDS v query (page_content doc))
        documents.
Proof.
  unfold Tfidf.flatten, Tfidf.cosine_similarity, Tfidf.transform. simpl.
  rewrite app_nil_r, !map_map. reflexivity.
Qed.

(** What [rank_documents] has computed when it returns. *)
Lemma rank_documents_inv (sort : list float -> list nat) (query : string)
    (index : option BM25.index) (documents : list Document) (n_results : nat)
    (r : ranking) :
  rank_documents log ENGLISH_STOP_WORDS sort query index documents n_results = Ok r ->
  exists ix v,
    index = Some ix
    /\ BM25.get_scores ix (clean_and_tokenize query) = Ok (bm25_scores r)
    /\ Tfidf.fit log ENGLISH_STOP_WORDS (map page_content documents) = Ok v
    /\ cosine_sim_scores r
       = map (fun doc => chunk_cosine log ENGLISH_STOP_WORDS v query (page_content doc))
             documents
    /\ Np.add (Np.scale (bm25_scores r) 0.5) (Np.scale (cosine_sim_scores r) 0.5)
       = Ok (combined_scores r)
    /\ unique_top_document_indices r
       = firstn n_results
           (PySet.to_list (PySet.of_list (rev (sort (combined_scores r))))).
Proof.
  unfold rank_documents. intros H.
  destruct index as [ix |]; [| discriminate]. cbn [bind] in H.
  destruct (BM25.get_scores ix (clean_and_tokenize query)) as [bm |] eqn:Hbm;
    [| discriminate].
  cbn [bind] in H. unfold Tfidf.fit_transform in H.
  destruct (Tfidf.fit log ENGLISH_STOP_WORDS (map page_content documents))
    as [v |] eqn:Hv; [| discriminate].
  cbn [bind] in H. rewrite cosine_scores_aligned in H.
  match type of H with
  | bind ?a _ = _ => destruct a as [comb |] eqn:Hc; [| discriminate]
  end.
  cbn [bind] in H. inversion H; subst; clear H. simpl.
  exists ix, v. repeat split; auto.
Qed.

End Scores.

(** ** The hybrid ranker *)

Section Ranker.

Variable log : float -> float.
Variable ENGLISH_STOP_WORDS : list string.

Lemma firstn_seq (n start len : nat) :
  firstn n (seq start len) = seq start (Nat.min n len).
Proof.
  revert start len. induction n as [| n IH]; intros start [| len]; simpl;
    try reflexivity.
  f_equal. apply IH.
Qed.

(** The indices selected are the first [n_results] indices of the array of
    combined scores, in ascending order. *)
Lemma rank_documents_indices (sort : list float -> list nat) (query : string)
    (index : option BM25.index) (documents : list Document) (n_results : nat)
    (r : ranking) :
  is_argsort sort ->
  rank_documents log ENGLISH_STOP_WORDS sort query index documents n_results = Ok r ->
  unique_top_document_indices r
  = seq 0 (Nat.min n_results (List.length (combined_scores r))).
Proof.
  intros Hsort H.
  destruct (rank_documents_inv _ _ _ _ _ _ _ _ H)
    as [ix [v [_ [_ [_ [_ [_ Hidx]]]]]]].
  rewrite Hidx, (list_set_permutation _ (List.length (combined_scores r))).
  - apply firstn_seq.
  - apply perm_trans with (sort (combined_scores r)).
    + apply Permutation_sym, Permutation_rev.
    + apply Hsort.
Qed.

(** The outcome of the ranking does not depend on the sort. *)
Lemma rank_documents_any_sort (sort1 sort2 : list float -> list nat)
    (query : string) (index : option BM25.index) (documents : list Document)
    (n_results : nat) :
  is_argsort sort1 -> is_argsort sort2 ->
  rank_documents log ENGLISH_STOP_WORDS sort1 query index documents n_results
  = rank_documents log ENGLISH_STOP_WORDS sort2 query index documents n_results.
Proof.
  intros H1 H2. unfold rank_documents.
  destruct index as [ix |]; [| reflexivity]. cbn [bind].
  destruct (BM25.get_scores ix (clean_and_tokenize query)) as [bm |];
    [| reflexivity].
  cbn [bind].
  destruct (Tfidf.fit_transform log ENGLISH_STOP_WORDS (map page_content documents))
    as [[v m] |]; [| reflexivity].
  cbn [bind].
  match goal with
  | |- bind ?a _ = _ => destruct a as [comb |]; [| reflexivity]
  end.
  cbn [bind].
  rewrite (list_set_permutation (rev (sort1 comb)) (List.length comb)).
  - rewrite (list_set_permutation (rev (sort2 comb)) (List.length comb)).
    + reflexivity.
    + apply perm_trans with (sort2 comb);
        [apply Permutation_sym, Permutation_rev | apply H2].
  - apply perm_trans with (sort1 comb);
      [apply Permutation_sym, Permutation_rev | apply H1].
Qed.

Lemma traverse_getitem_inv (documents : list Document) (indices : list nat)
    (res : list Document) :
  traverse (getitem documents) indices = Ok res ->
  Forall2 (fun i chunk => nth_error documents i = Some chunk) indices res.
Proof.
  revert res. induction indices as [| i r IH]; intros res H; simpl in H.
  - inversion H. constructor.
  - unfold getitem in H at 1.
    destruct (nth_error documents i) as [doc |] eqn:Hi; [| discriminate].
    cbn [bind] in H.
    destruct (traverse (getitem documents) r) as [xs |]; [| discriminate].
    cbn [bind] in H. inversion H; subst. constructor; auto.
Qed.

Lemma traverse_getitem_seq (k : nat) (pre l : list Document) :
  k <= List.length l ->
  traverse (getitem (pre ++ l)) (seq (List.length pre) k) = Ok (firstn k l).
Proof.
  revert pre l. induction k as [| k IH]; intros pre l Hk.
  - reflexivity.
  - destruct l as [| d l]; [simpl in Hk; lia |].
    simpl. unfold getitem at 1.
    rewrite nth_error_app2, Nat.sub_diag by lia. simpl.
    replace (pre ++ d :: l) with ((pre ++ [d]) ++ l)
      by (rewrite <- app_assoc; reflexivity).
    replace (S (List.length pre)) with (List.length (pre ++ [d]))
      by (rewrite length_app; simpl; lia).
    rewrite IH by (simpl in Hk; lia). reflexivity.
Qed.

Lemma forall2_In_l {A B : Type} (R : A -> B -> Prop) (l1 : list A)
    (l2 : list B) (x : A) :
  Forall2 R l1 l2 -> In x l1 -> exists y, R x y.
Proof.
  induction 1 as [| a c r1 r2 Hac _ IH]; intros Hin.
  - contradiction.
  - destruct Hin as [<- | Hin]; [exists c; exact Hac | auto].
Qed.

Lemma traverse_getitem_bound (documents res : list Document) (k : nat) :
  traverse (getitem documents) (seq 0 k) = Ok res ->
  k <= List.length documents.
Proof.
  intros H. apply traverse_getitem_inv in H.
  destruct k as [| k]; [lia |].
  assert (Hin : In k (seq 0 (S k))) by (apply in_seq; lia).
  destruct (forall2_In_l _ _ _ _ H Hin) as [doc Hdoc].
  assert (Hlt : k < List.length documents).
  { apply nth_error_Some. rewrite Hdoc. discriminate. }
  lia.
Qed.

(** The array of combined scores is at least as long as the list of
    documents when the index is one that [BM25Okapi] has built. *)
Lemma combined_length (sort : list float -> list nat)
    (corpus : list (list string)) (ix : BM25.index) (query : string)
    (documents : list Document) (n_results : nat) (r : ranking) :
  BM25.BM25Okapi log corpus = Ok ix ->
  rank_documents log ENGLISH_STOP_WORDS sort query (Some ix) documents n_results = Ok r ->
  List.length (bm25_scores r) = List.length corpus
  /\ List.length (cosine_sim_scores r) = List.length documents
  /\ List.length documents <= List.length (combined_scores r)
  /\ (List.length corpus = List.length documents ->
      List.length (combined_scores r) = List.length documents).
Proof.
  intros Hix H.
  destruct (rank_documents_inv _ _ _ _ _ _ _ _ H)
    as [ix' [v [Hsome [Hbm [_ [Hcos [Hadd _]]]]]]].
  inversion Hsome; subst ix'; clear Hsome.
  rewrite (get_scores_aligned log corpus ix _ Hix) in Hbm.
  injection Hbm as Hbm'.
  assert (Hm : List.length (bm25_scores r) = List.length corpus)
    by (rewrite <- Hbm'; apply length_map).
  assert (Hd : List.length (cosine_sim_scores r) = List.length documents)
    by (rewrite Hcos; apply length_map).
  destruct (BM25Okapi_fields log corpus ix Hix) as [Hne _].
  assert (Hpos : 0 < List.length corpus)
    by (destruct corpus; [contradiction | simpl; lia]).
  apply np_add_length in Hadd. unfold Np.scale in Hadd.
  rewrite !length_map in Hadd.
  repeat split; auto; lia.
Qed.

(** Whenever the search returns, it returns the first [n_results] chunks
    of the corpus, in the order of the corpus. *)
Lemma search_documents_by_corpus_order (sort : list float -> list nat)
    (corpus : list (list string)) (ix : BM25.index) (query : string)
    (documents : list Document) (n_results : nat) (res : list Document) :
  is_argsort sort ->
  BM25.BM25Okapi log corpus = Ok ix ->
  search_documents_by log ENGLISH_STOP_WORDS sort query (Some ix) documents n_results
  = Ok res ->
  res = firstn n_results documents.
Proof.
  intros Hsort Hix H. unfold search_documents_by in H.
  destruct (rank_documents log ENGLISH_STOP_WORDS sort query (Some ix)
              documents n_results) as [r |] eqn:Hr; [| discriminate].
  cbn [bind] in H.
  rewrite (rank_documents_indices _ _ _ _ _ _ Hsort Hr) in H.
  destruct (combined_length _ _ _ _ _ _ _ Hix Hr) as [_ [_ [Hge _]]].
  pose proof (traverse_getitem_bound _ _ _ H) as Hk.
  pose proof (traverse_getitem_seq _ [] documents Hk) as Hres.
  simpl in Hres. rewrite Hres in H.
  inversion H; subst; clear H.
  destruct (Nat.le_gt_cases n_results (List.length (combined_scores r))).
  - rewrite Nat.min_l by assumption. reflexivity.
  - rewrite Nat.min_r in * by lia.
    rewrite !firstn_all2 by lia. reflexivity.
Qed.

(** With the index of the chunks and a vocabulary that is not empty, the
    search does return, for every query and every number of results. *)
Lemma search_documents_returns (sort : list float -> list nat)
    (ix : BM25.index) (query : string) (documents : list Document)
    (n_results : nat) :
  is_argsort sort ->
  BM25.BM25Okapi log
    (map (fun doc => clean_and_tokenize (page_content doc)) documents) = Ok ix ->
  Tfidf.vocabulary ENGLISH_STOP_WORDS (map page_content documents) <> [] ->
  search_documents_by log ENGLISH_STOP_WORDS sort query (Some ix) documents n_results
  = Ok (firstn n_results documents).
Proof.
  intros Hsort Hix Hvoc.
  assert (Hr : exists r,
             rank_documents log ENGLISH_STOP_WORDS sort query (Some ix)
               documents n_results = Ok r).
  { unfold rank_documents. cbn [bind].
    rewrite (get_scores_aligned log _ ix _ Hix). cbn [bind].
    unfold Tfidf.fit_transform, Tfidf.fit.
    destruct (Tfidf.vocabulary ENGLISH_STOP_WORDS (map page_content documents))
      as [| w voc] eqn:Ev; [contradiction |].
    cbn [List.length Nat.eqb bind].
    rewrite cosine_scores_aligned.
    unfold Np.add, Np.map2, Np.scale.
    rewrite !length_map, Nat.eqb_refl. cbn [bind].
    eexists. reflexivity. }
  destruct Hr as [r Hr].
  unfold search_documents_by. rewrite Hr. cbn [bind].
  rewrite (rank_documents_indices _ _ _ _ _ _ Hsort Hr).
  destruct (combined_length _ _ _ _ _ _ _ Hix Hr) as [_ [_ [_ Hc]]].
  rewrite length_map in Hc. rewrite (Hc eq_refl).
  pose proof (traverse_getitem_seq
                (Nat.min n_results (List.length documents)) [] documents
                (Nat.le_min_r _ _)) as Hres.
  simpl in Hres. rewrite Hres. f_equal.
  destruct (Nat.le_gt_cases n_results (List.length documents)).
  - rewrite Nat.min_l by assumption. reflexivity.
  - rewrite Nat.min_r by lia. rewrite !firstn_all2 by lia. reflexivity.
Qed.

End Ranker.

(** C2.  For the index of a corpus, a query and a number of results, the
    indices that [search_documents] selects are pairwise distinct, the
    list it returns holds the chunks at these indices and is at most
    [n_results] long, and when the list of chunks is shorter than
    [n_results] every chunk index occurs exactly once among them. *)
Theorem search_documents_unique_bounded
    (log : float -> float) (ENGLISH_STOP_WORDS : list string)
    (corpus : list (list string)) (ix : BM25.index) (query : string)
    (documents : list Document) (n_results : nat) (res : list Document) :
  BM25.BM25Okapi log corpus = Ok ix ->
  search_documents log ENGLISH_STOP_WORDS query (Some ix) documents n_results = Ok res ->
  exists r,
    rank_documents log ENGLISH_STOP_WORDS Np.argsort query (Some ix) documents n_results
    = Ok r
    /\ Forall2 (fun i chunk => nth_error documents i = Some chunk)
               (unique_top_document_indices r) res
    /\ NoDup (unique_top_document_indices r)
    /\ List.length res <= n_results
    /\ (List.length documents < n_results ->
        forall i, i < List.length documents ->
          count_occ Nat.eq_dec (unique_top_document_indices r) i = 1).
Proof.
  intros Hix H.
  pose proof (search_documents_by_corpus_order log ENGLISH_STOP_WORDS
                Np.argsort corpus ix query documents n_results res
                argsort_permutation Hix H) as Hres.
  unfold search_documents, search_documents_by in H.
  destruct (rank_documents log ENGLISH_STOP_WORDS Np.argsort query (Some ix)
              documents n_results) as [r |] eqn:Hr; [| discriminate].
  cbn [bind] in H. exists r.
  pose proof (rank_documents_indices log ENGLISH_STOP_WORDS _ _ _ _ _ _
                argsort_permutation Hr) as Hidx.
  split; [reflexivity |].
  split; [apply traverse_getitem_inv; exact H |].
  split; [rewrite Hidx; apply seq_NoDup |].
  split; [rewrite Hres; apply firstn_le_length |].
  intros Hlt i Hi.
  rewrite Hidx in H |- *.
  pose proof (traverse_getitem_bound _ _ _ H) as Hk.
  destruct (combined_length log ENGLISH_STOP_WORDS _ _ _ _ _ _ _ Hix Hr)
    as [_ [_ [Hge _]]].
  apply NoDup_count_occ'; [apply seq_NoDup |].
  apply in_seq. lia.
Qed.

Lemma search_documents_unique_bounded_witness :
  BM25.BM25Okapi Instance.libm_log
    (Instance.corpus_of [Instance.chunk_a; Instance.chunk_b])
  = Ok Instance.index_ab
  /\ search_documents Instance.libm_log Instance.stop_words "quick fox"
       (Some Instance.index_ab) [Instance.chunk_a; Instance.chunk_b] 5
     = Ok [Instance.chunk_a; Instance.chunk_b]
  /\ exists r,
       rank_documents Instance.libm_log Instance.stop_words Np.argsort "quick fox"
         (Some Instance.index_ab) [Instance.chunk_a; Instance.chunk_b] 5
       = Ok r
       /\ Forall2 (fun i chunk =>
                     nth_error [Instance.chunk_a; Instance.chunk_b] i = Some chunk)
                  (unique_top_document_indices r)
                  [Instance.chunk_a; Instance.chunk_b]
       /\ NoDup (unique_top_document_indices r)
       /\ List.length [Instance.chunk_a; Instance.chunk_b] <= 5
       /\ (List.length [Instance.chunk_a; Instance.chunk_b] < 5 ->
           forall i, i < List.length [Instance.chunk_a; Instance.chunk_b] ->
             count_occ Nat.eq_dec (unique_top_document_indices r) i = 1).
Proof.
  split; [vm_compute; reflexivity |].
  split; [vm_compute; reflexivity |].
  apply (search_documents_unique_bounded Instance.libm_log Instance.stop_words
           (Instance.corpus_of [Instance.chunk_a; Instance.chunk_b])).
  - vm_compute. reflexivity.
  - vm_compute. reflexivity.
Defined.

(** C7.  Two runs of the search on the same query, index, chunks and
    number of results have the same outcome, whatever order the sort of
    each run leaves equal scores in, and the contexts formatted from what
    they return are the same string. *)
Theorem search_deterministic
    (log : float -> float) (ENGLISH_STOP_WORDS : list string)
    (sort1 sort2 : list float -> list nat) (query : string)
    (index : option BM25.index) (documents : list Document) (n_results : nat) :
  is_argsort sort1 -> is_argsort sort2 ->
  search_documents_by log ENGLISH_STOP_WORDS sort1 query index documents n_results
  = search_documents_by log ENGLISH_STOP_WORDS sort2 query index documents n_results
  /\ forall res1 res2,
       search_documents_by log ENGLISH_STOP_WORDS sort1 query index documents n_results
       = Ok res1 ->
       search_documents_by log ENGLISH_STOP_WORDS sort2 query index documents n_results
       = Ok res2 ->
       res1 = res2 /\ format_documents res1 = format_documents res2.
Proof.
  intros H1 H2.
  assert (E : search_documents_by log ENGLISH_STOP_WORDS sort1 query index
                documents n_results
              = search_documents_by log ENGLISH_STOP_WORDS sort2 query index
                  documents n_results).
  { unfold search_documents_by.
    rewrite (rank_documents_any_sort log ENGLISH_STOP_WORDS sort1 sort2 _ _ _ _ H1 H2).
    reflexivity. }
  split; [exact E |].
  intros res1 res2 Hr1 Hr2. rewrite E, Hr2 in Hr1.
  inversion Hr1; subst. split; reflexivity.
Qed.

Lemma search_deterministic_witness :
  is_argsort Np.argsort
  /\ is_argsort (fun a => rev (Np.argsort a))
  /\ (search_documents_by Instance.libm_log Instance.stop_words Np.argsort
        "quick fox" (Some Instance.index_ab)
        [Instance.chunk_a; Instance.chunk_b] 5
      = search_documents_by Instance.libm_log Instance.stop_words
          (fun a => rev (Np.argsort a))
          "quick fox" (Some Instance.index_ab)
          [Instance.chunk_a; Instance.chunk_b] 5
      /\ forall res1 res2,
           search_documents_by Instance.libm_log Instance.stop_words Np.argsort
             "quick fox" (Some Instance.index_ab)
             [Instance.chunk_a; Instance.chunk_b] 5
           = Ok res1 ->
           search_documents_by Instance.libm_log Instance.stop_words
             (fun a => rev (Np.argsort a))
             "quick fox" (Some Instance.index_ab)
             [Instance.chunk_a; Instance.chunk_b] 5
           = Ok res2 ->
           res1 = res2 /\ format_documents res1 = format_documents res2).
Proof.
  assert (H1 : is_argsort Np.argsort) by exact argsort_permutation.
  assert (H2 : is_argsort (fun a => rev (Np.argsort a))).
  { intros a. apply perm_trans with (Np.argsort a).
    - apply Permutation_sym, Permutation_rev.
    - apply argsort_permutation. }
  split; [exact H1 |]. split; [exact H2 |].
  exact (search_deterministic Instance.libm_log Instance.stop_words
           Np.argsort (fun a => rev (Np.argsort a)) "quick fox"
           (Some Instance.index_ab) [Instance.chunk_a; Instance.chunk_b] 5 H1 H2).
Defined.

Lemma map_combine_maps {A : Type} (f : float * float -> float)
    (g h : A -> float) (l : list A) :
  map f (combine (map g l) (map h l)) = map (fun a => f (g a, h a)) l.
Proof. induction l as [| a l IH]; simpl; [reflexivity | f_equal; exact IH]. Qed.

(** C6, the claim as amended.  For the index of the chunks, the array of
    combined scores that the selection sorts has one entry per chunk, and
    the entry of a chunk is 0.5 times the BM25 score of its tokens, as
    [get_scores] computes it, plus 0.5 times the cosine similarity of its
    row with the row of the query; neither score is rescaled before. *)
Theorem combined_score_is_average
    (log : float -> float) (ENGLISH_STOP_WORDS : list string)
    (sort : list float -> list nat) (ix : BM25.index) (query : string)
    (documents : list Document) (n_results : nat) (r : ranking) :
  BM25.BM25Okapi log
    (map (fun doc => clean_and_tokenize (page_content doc)) documents) = Ok ix ->
  rank_documents log ENGLISH_STOP_WORDS sort query (Some ix) documents n_results = Ok r ->
  exists v,
    Tfidf.fit log ENGLISH_STOP_WORDS (map page_content documents) = Ok v
    /\ List.length (combined_scores r) = List.length documents
    /\ (forall i chunk, nth_error documents i = Some chunk ->
          nth_error (combined_scores r) i
          = Some (chunk_bm25 ix (clean_and_tokenize query)
                    (BM25.frequencies (clean_and_tokenize (page_content chunk)))
                    (List.length (clean_and_tokenize (page_content chunk)))
                  * 0.5
                  + chunk_cosine log ENGLISH_STOP_WORDS v query (page_content chunk)
                    * 0.5)%float)
    /\ unique_top_document_indices r
       = firstn n_results
           (PySet.to_list (PySet.of_list (rev (sort (combined_scores r))))).
Proof.
  intros Hix Hr.
  destruct (rank_documents_inv _ _ _ _ _ _ _ _ Hr)
    as [ix' [v [Hsome [Hbm [Hv [Hcos [Hadd Hidx]]]]]]].
  inversion Hsome; subst ix'; clear Hsome.
  rewrite (get_scores_aligned log _ ix _ Hix) in Hbm.
  injection Hbm as Hbm. rewrite map_map in Hbm.
  exists v. split; [exact Hv |].
  assert (Hc : combined_scores r
               = map (fun doc =>
                        (chunk_bm25 ix (clean_and_tokenize query)
                           (BM25.frequencies (clean_and_tokenize (page_content doc)))
                           (List.length (clean_and_tokenize (page_content doc)))
                         * 0.5
                         + chunk_cosine log ENGLISH_STOP_WORDS v query
                             (page_content doc) * 0.5)%float)
                     documents).
  { apply np_add_items in Hadd;
      [| rewrite <- Hbm, Hcos, !length_map; reflexivity].
    rewrite Hadd, <- Hbm, Hcos.
    exact (map_combine_maps (fun '(x, y) => (x * 0.5 + y * 0.5)%float) _ _ documents). }
  split; [rewrite Hc; apply length_map |].
  split; [| exact Hidx].
  intros i chunk Hi. rewrite Hc.
  exact (map_nth_error
           (fun doc =>
              (chunk_bm25 ix (clean_and_tokenize query)
                 (BM25.frequencies (clean_and_tokenize (page_content doc)))
                 (List.length (clean_and_tokenize (page_content doc)))
               * 0.5
               + chunk_cosine log ENGLISH_STOP_WORDS v query
                   (page_content doc) * 0.5)%float)
           i documents Hi).
Qed.

Lemma combined_score_is_average_witness :
  BM25.BM25Okapi Instance.libm_log
    (map (fun doc => clean_and_tokenize (page_content doc))
         [Instance.chunk_b; Instance.chunk_a])
  = Ok Instance.index_ba
  /\ rank_documents Instance.libm_log Instance.stop_words Np.argsort "quick fox"
       (Some Instance.index_ba) [Instance.chunk_b; Instance.chunk_a] 5
     = Ok Instance.ranking_ba
  /\ exists v,
       Tfidf.fit Instance.libm_log Instance.stop_words
         (map page_content [Instance.chunk_b; Instance.chunk_a]) = Ok v
       /\ List.length (combined_scores Instance.ranking_ba)
          = List.length [Instance.chunk_b; Instance.chunk_a]
       /\ (forall i chunk,
             nth_error [Instance.chunk_b; Instance.chunk_a] i = Some chunk ->
             nth_error (combined_scores Instance.ranking_ba) i
             = Some (chunk_bm25 Instance.index_ba (clean_and_tokenize "quick fox")
                       (BM25.frequencies (clean_and_tokenize (page_content chunk)))
                       (List.length (clean_and_tokenize (page_content chunk)))
                     * 0.5
                     + chunk_cosine Instance.libm_log Instance.stop_words v
                         "quick fox" (page_content chunk) * 0.5)%float)
       /\ unique_top_document_indices Instance.ranking_ba
          = firstn 5
              (PySet.to_list
                 (PySet.of_list
                    (rev (Np.argsort (combined_scores Instance.ranking_ba))))).
Proof.
  split; [vm_compute; reflexivity |].
  split; [vm_compute; reflexivity |].
  apply (combined_score_is_average Instance.libm_log Instance.stop_words
           Np.argsort Instance.index_ba "quick fox"
           [Instance.chunk_b; Instance.chunk_a] 5 Instance.ranking_ba).
  - vm_compute. reflexivity.
  - vm_compute. reflexivity.
Defined.

(** C6 as the specification has it fails: the arrays that are averaged
    are not normalized.  On four chunks of which one repeats the query
    word, the BM25 score of that chunk is above 1, it enters the average
    as it is, and the combined score is above 1 as well. *)
Lemma combined_score_not_normalized :
  BM25.BM25Okapi Instance.libm_log (Instance.corpus_of Instance.four_chunks)
  = Ok Instance.index_four
  /\ rank_documents Instance.libm_log Instance.stop_words Np.argsort "fox"
       (Some Instance.index_four) Instance.four_chunks 5
     = Ok Instance.ranking_four
  /\ BM25.get_scores Instance.index_four (clean_and_tokenize "fox")
     = Ok (bm25_scores Instance.ranking_four)
  /\ within_unit (bm25_scores Instance.ranking_four) = false
  /\ (1 <? Np.item (bm25_scores Instance.ranking_four) 0)%float = true
  /\ Np.item (combined_scores Instance.ranking_four) 0
     = (Np.item (bm25_scores Instance.ranking_four) 0 * 0.5
        + Np.item (cosine_sim_scores Instance.ranking_four) 0 * 0.5)%float
  /\ within_unit (combined_scores Instance.ranking_four) = false.
Proof. repeat split; vm_compute; reflexivity. Qed.

(** C5.  For the index of the chunks and a query, the array of BM25 scores
    and the array of cosine similarities that [search_documents] computes
    have one entry per chunk each, and entry [i] of either is the score of
    chunk [i]: the BM25 score of its tokens, and the cosine similarity of
    its row with the row of the query. *)
Theorem score_arrays_aligned
    (log : float -> float) (ENGLISH_STOP_WORDS : list string)
    (sort : list float -> list nat) (ix : BM25.index) (query : string)
    (documents : list Document) (n_results : nat) (r : ranking) :
  BM25.BM25Okapi log
    (map (fun doc => clean_and_tokenize (page_content doc)) documents) = Ok ix ->
  rank_documents log ENGLISH_STOP_WORDS sort query (Some ix) documents n_results = Ok r ->
  List.length (bm25_scores r) = List.length documents
  /\ List.length (cosine_sim_scores r) = List.length documents
  /\ exists v,
       Tfidf.fit log ENGLISH_STOP_WORDS (map page_content documents) = Ok v
       /\ forall i chunk, nth_error documents i = Some chunk ->
            nth_error (bm25_scores r) i
            = Some (chunk_bm25 ix (clean_and_tokenize query)
                      (BM25.frequencies (clean_and_tokenize (page_content chunk)))
                      (List.length (clean_and_tokenize (page_content chunk))))
            /\ nth_error (cosine_sim_scores r) i
               = Some (chunk_cosine log ENGLISH_STOP_WORDS v query (page_content chunk)).
Proof.
  intros Hix Hr.
  destruct (combined_length log ENGLISH_STOP_WORDS _ _ _ _ _ _ _ Hix Hr)
    as [Hm [Hd _]].
  rewrite length_map in Hm.
  destruct (rank_documents_inv _ _ _ _ _ _ _ _ Hr)
    as [ix' [v [Hsome [Hbm [Hv [Hcos _]]]]]].
  inversion Hsome; subst ix'; clear Hsome.
  rewrite (get_scores_aligned log _ ix _ Hix) in Hbm.
  injection Hbm as Hbm.
  split; [exact Hm |]. split; [exact Hd |].
  exists v. split; [exact Hv |].
  intros i chunk Hi. split.
  - rewrite <- Hbm, map_map.
    exact (map_nth_error
             (fun doc =>
                chunk_bm25 ix (clean_and_tokenize query)
                  (BM25.frequencies (clean_and_tokenize (page_content doc)))
                  (List.length (clean_and_tokenize (page_content doc))))
             i documents Hi).
  - rewrite Hcos.
    exact (map_nth_error
             (fun doc =>
                chunk_cosine log ENGLISH_STOP_WORDS v query (page_content doc))
             i documents Hi).
Qed.

Lemma score_arrays_aligned_witness :
  BM25.BM25Okapi Instance.libm_log
    (map (fun doc => clean_and_tokenize (page_content doc))
         [Instance.chunk_b; Instance.chunk_a])
  = Ok Instance.index_ba
  /\ rank_documents Instance.libm_log Instance.stop_words Np.argsort "quick fox"
       (Some Instance.index_ba) [Instance.chunk_b; Instance.chunk_a] 5
     = Ok Instance.ranking_ba
  /\ (List.length (bm25_scores Instance.ranking_ba)
      = List.length [Instance.chunk_b; Instance.chunk_a]
      /\ List.length (cosine_sim_scores Instance.ranking_ba)
         = List.length [Instance.chunk_b; Instance.chunk_a]
      /\ exists v,
           Tfidf.fit Instance.libm_log Instance.stop_words
             (map page_content [Instance.chunk_b; Instance.chunk_a]) = Ok v
           /\ forall i chunk,
                nth_error [Instance.chunk_b; Instance.chunk_a] i = Some chunk ->
                nth_error (bm25_scores Instance.ranking_ba) i
                = Some (chunk_bm25 Instance.index_ba (clean_and_tokenize "quick fox")
                          (BM25.frequencies (clean_and_tokenize (page_content chunk)))
                          (List.length (clean_and_tokenize (page_content chunk))))
                /\ nth_error (cosine_sim_scores Instance.ranking_ba) i
                   = Some (chunk_cosine Instance.libm_log Instance.stop_words v
                             "quick fox" (page_content chunk))).
Proof.
  split; [vm_compute; reflexivity |].
  split; [vm_compute; reflexivity |].
  apply (score_arrays_aligned Instance.libm_log Instance.stop_words
           Np.argsort Instance.index_ba "quick fox"
           [Instance.chunk_b; Instance.chunk_a] 5 Instance.ranking_ba).
  - vm_compute. reflexivity.
  - vm_compute. reflexivity.
Defined.

(** C1, at the corpus of the two example chunks in the order B, A and the
    query "quick fox".  The combined score of chunk A, at index 1, is
    strictly higher than that of chunk B, at index 0; the search returns B
    before A all the same, and B alone when one result is asked for: the
    indices come out of the set in ascending order, not in ranked order.
    On the corpus in the order A, B the same search returns A before B. *)
Theorem search_documents_loses_rank :
  rank_documents Instance.libm_log Instance.stop_words Np.argsort "quick fox"
    (Some Instance.index_ba) [Instance.chunk_b; Instance.chunk_a] 5
  = Ok Instance.ranking_ba
  /\ (Np.item (combined_scores Instance.ranking_ba) 0
      <? Np.item (combined_scores Instance.ranking_ba) 1)%float = true
  /\ Np.argsort (combined_scores Instance.ranking_ba) = [0; 1]
  /\ unique_top_document_indices Instance.ranking_ba = [0; 1]
  /\ ranked_order (combined_scores Instance.ranking_ba)
                  (unique_top_document_indices Instance.ranking_ba) = false
  /\ search_documents Instance.libm_log Instance.stop_words "quick fox"
       (Some Instance.index_ba) [Instance.chunk_b; Instance.chunk_a] 5
     = Ok [Instance.chunk_b; Instance.chunk_a]
  /\ search_documents Instance.libm_log Instance.stop_words "quick fox"
       (Some Instance.index_ba) [Instance.chunk_b; Instance.chunk_a] 1
     = Ok [Instance.chunk_b]
  /\ search_documents Instance.libm_log Instance.stop_words "quick fox"
       (Some Instance.index_ab) [Instance.chunk_a; Instance.chunk_b] 5
     = Ok [Instance.chunk_a; Instance.chunk_b].
Proof. repeat split; vm_compute; reflexivity. Qed.

(** ** The empty corpus *)

Lemma load_and_index_files_empty (log : float -> float) (repo : Repository)
    (index : option BM25.index) (file_type_counts : Dict.t nat)
    (filenames : list string) :
  load_and_index_files log repo = Ok (index, [], file_type_counts, filenames) ->
  index = None /\ filenames = [].
Proof.
  unfold load_and_index_files.
  destruct (load_all repo) as [[counts documents_dict] drawn].
  match goal with
  | |- bind (match ?sd with _ => _ end) _ = _ -> _ =>
      destruct sd as [| d sd'] eqn:Hsd
  end.
  - cbn [bind]. intros H. inversion H. split; reflexivity.
  - match goal with
    | |- bind (bind ?a _) _ = _ -> _ => destruct a; cbn [bind]; intros H;
                                        discriminate
    end.
Qed.

(** C4, the claim as amended.  When there is no chunk,
    [load_and_index_files] returns [None] for the index and no file name,
    [main] exits on that without asking for a question, and
    [search_documents] called with this index raises [AttributeError]. *)
Theorem empty_corpus_is_gated
    (log : float -> float) (repo : Repository)
    (index : option BM25.index) (file_type_counts : Dict.t nat)
    (filenames : list string) :
  load_and_index_files log repo = Ok (index, [], file_type_counts, filenames) ->
  index = None
  /\ filenames = []
  /\ start_session (index, [], file_type_counts, filenames) = Exiting
  /\ forall ENGLISH_STOP_WORDS query n_results,
       search_documents log ENGLISH_STOP_WORDS query index [] n_results
       = Raise AttributeError.
Proof.
  intros H. destruct (load_and_index_files_empty log repo _ _ _ H) as [-> ->].
  repeat split.
Qed.

Lemma empty_corpus_is_gated_witness :
  load_and_index_files Instance.libm_log Instance.empty_repository
  = Ok (None, [], [], [])
  /\ (@None BM25.index = None
      /\ @nil string = []
      /\ start_session (None, [], [], []) = Exiting
      /\ forall ENGLISH_STOP_WORDS query n_results,
           search_documents Instance.libm_log ENGLISH_STOP_WORDS query None [] n_results
           = Raise AttributeError).
Proof.
  split; [vm_compute; reflexivity |].
  apply (empty_corpus_is_gated Instance.libm_log Instance.empty_repository
           None [] []).
  vm_compute. reflexivity.
Defined.

(** C4 as the specification has it fails: a search on the empty corpus
    raises, it does not return the empty sequence. *)
Lemma search_empty_corpus_raises :
  load_and_index_files Instance.libm_log Instance.empty_repository
  = Ok (None, [], [], [])
  /\ search_documents Instance.libm_log Instance.stop_words "quick fox" None [] 5
     = Raise AttributeError
  /\ search_documents Instance.libm_log Instance.stop_words "quick fox" None [] 5
     <> Ok [].
Proof.
  split; [vm_compute; reflexivity |].
  split; [vm_compute; reflexivity |].
  vm_compute. discriminate.
Qed.

(** ** The chunker and the file names *)

Lemma list_ascii_length (s : string) :
  List.length (list_ascii_of_string s) = String.length s.
Proof. induction s as [| c s IH]; simpl; congruence. Qed.

Lemma split_text_short (chunk_size chunk_overlap : nat) (text : string) :
  String.length text <= chunk_size ->
  Splitter.split_text chunk_size chunk_overlap text = [text].
Proof.
  intros Hlen. unfold Splitter.split_text.
  assert (H : Splitter.split_from (String.length text) chunk_size chunk_overlap
                (list_ascii_of_string text)
              = [list_ascii_of_string text]).
  { destruct (String.length text) as [| fuel] eqn:E; [reflexivity |].
    cbn [Splitter.split_from].
    rewrite list_ascii_length, E.
    apply Nat.leb_le in Hlen. rewrite Hlen. reflexivity. }
  rewrite H. cbn [map]. rewrite string_of_list_ascii_of_string. reflexivity.
Qed.

(** C8.  A document whose content is at most 3000 characters long is
    split into exactly one chunk, whose text is the whole content and
    whose metadata are those of the document. *)
Theorem short_document_one_chunk (doc : Document) :
  String.length (page_content doc) <= 3000 ->
  Splitter.split_documents 3000 200 [doc] = [doc].
Proof.
  intros Hlen. unfold Splitter.split_documents. cbn [flat_map].
  rewrite (split_text_short 3000 200 _ Hlen). cbn [map app].
  destruct doc. reflexivity.
Qed.

Lemma short_document_one_chunk_witness :
  String.length (page_content Instance.chunk_a) <= 3000
  /\ Splitter.split_documents 3000 200 [Instance.chunk_a] = [Instance.chunk_a].
Proof.
  split.
  - apply Nat.leb_le. vm_compute. reflexivity.
  - apply (short_document_one_chunk Instance.chunk_a).
    apply Nat.leb_le. vm_compute. reflexivity.
Defined.

Lemma load_and_index_files_chunks (log : float -> float) (repo : Repository)
    (index : option BM25.index) (split_documents : list Document)
    (file_type_counts : Dict.t nat) (filenames : list string) :
  load_and_index_files log repo
  = Ok (index, split_documents, file_type_counts, filenames) ->
  split_documents = flat_map chunks_of (loaded_documents repo)
  /\ filenames = map source split_documents.
Proof.
  unfold load_and_index_files, loaded_documents.
  destruct (load_all repo) as [[counts documents_dict] drawn]. cbn [fst snd].
  match goal with
  | |- bind ?a _ = _ -> _ => destruct a as [ix |]; cbn [bind]; [| discriminate]
  end.
  intros H. inversion H; subst; clear H. split; [| reflexivity].
  apply flat_map_ext. intros d.
  unfold Splitter.split_documents, chunks_of. cbn [flat_map].
  rewrite app_nil_r, map_map. reflexivity.
Qed.

(** C10.  The list of file names that [load_and_index_files] returns has
    one entry per chunk, the source path of that chunk; a file that was
    split into [k] chunks has its path [k] times in a row. *)
Theorem filenames_one_per_chunk
    (log : float -> float) (repo : Repository)
    (index : option BM25.index) (split_documents : list Document)
    (file_type_counts : Dict.t nat) (filenames : list string) :
  load_and_index_files log repo
  = Ok (index, split_documents, file_type_counts, filenames) ->
  List.length filenames = List.length split_documents
  /\ (forall i chunk, nth_error split_documents i = Some chunk ->
        nth_error filenames i = Some (source chunk))
  /\ split_documents = flat_map chunks_of (loaded_documents repo)
  /\ filenames
     = flat_map (fun original_doc =>
                   repeat (source original_doc)
                          (List.length (chunks_of original_doc)))
                (loaded_documents repo).
Proof.
  intros H.
  destruct (load_and_index_files_chunks log repo _ _ _ _ H) as [Hsplit Hnames].
  split; [rewrite Hnames; apply length_map |].
  split.
  { intros i chunk Hi. rewrite Hnames. exact (map_nth_error source i _ Hi). }
  split; [exact Hsplit |].
  rewrite Hnames, Hsplit. clear.
  induction (loaded_documents repo) as [| d l IH]; [reflexivity |].
  cbn [flat_map]. rewrite map_app, IH. f_equal.
  unfold chunks_of. rewrite map_map, length_map. cbn [source].
  induction (Splitter.split_text 3000 200 (page_content d)) as [| t ts IHt];
    [reflexivity |].
  cbn [map List.length repeat]. f_equal. exact IHt.
Qed.

Lemma filenames_one_per_chunk_witness :
  load_and_index_files Instance.libm_log Instance.long_file
  = Ok (Instance.long_file_index, Instance.long_file_chunks,
        [("txt"%string, 1)], ["notes/big.txt"%string; "notes/big.txt"%string])
  /\ (List.length ["notes/big.txt"%string; "notes/big.txt"%string]
      = List.length Instance.long_file_chunks
      /\ (forall i chunk, nth_error Instance.long_file_chunks i = Some chunk ->
            nth_error ["notes/big.txt"%string; "notes/big.txt"%string] i
            = Some (source chunk))
      /\ Instance.long_file_chunks
         = flat_map chunks_of (loaded_documents Instance.long_file)
      /\ ["notes/big.txt"%string; "notes/big.txt"%string]
         = flat_map (fun original_doc =>
                       repeat (source original_doc)
                              (List.length (chunks_of original_doc)))
                    (loaded_documents Instance.long_file)).
Proof.
  split; [vm_compute; reflexivity |].
  apply (filenames_one_per_chunk Instance.libm_log Instance.long_file
           Instance.long_file_index Instance.long_file_chunks
           [("txt"%string, 1)]).
  vm_compute. reflexivity.
Defined.

(** ** The context assembler *)

Lemma enumerate_render (documents : list Document) (k : nat) :
  map (fun '(i, doc) =>
         (str_of_nat (i + 1) ++ ". " ++ basename (source doc)
          ++ ": " ++ page_content doc)%string)
      (combine (seq k (List.length documents)) documents)
  = render_ranked (S k) documents.
Proof.
  revert k. induction documents as [| d l IH]; intros k.
  - reflexivity.
  - cbn [List.length seq combine map render_ranked]. f_equal.
    + unfold render_chunk. rewrite Nat.add_1_r. reflexivity.
    + apply IH.
Qed.

Lemma render_ranked_nth (documents : list Document) (k i : nat) (chunk : Document) :
  nth_error documents i = Some chunk ->
  nth_error (render_ranked k documents) i = Some (render_chunk (k + i) chunk).
Proof.
  revert k i. induction documents as [| d l IH]; intros k i Hi.
  - destruct i; discriminate.
  - destruct i as [| i].
    + injection Hi as ->. rewrite Nat.add_0_r. reflexivity.
    + cbn [render_ranked nth_error]. rewrite (IH (S k) i Hi).
      do 2 f_equal. lia.
Qed.

Lemma render_ranked_ext (l1 l2 : list Document) (k : nat) :
  map source l1 = map source l2 ->
  map page_content l1 = map page_content l2 ->
  render_ranked k l1 = render_ranked k l2.
Proof.
  revert l2 k. induction l1 as [| d1 l1 IH]; intros [| d2 l2] k Hs Hc;
    try discriminate; [reflexivity |].
  cbn [map] in Hs, Hc. injection Hs as Hs1 Hs. injection Hc as Hc1 Hc.
  cbn [render_ranked]. f_equal.
  - unfold render_chunk. rewrite Hs1, Hc1. reflexivity.
  - apply IH; assumption.
Qed.

(** C9.  [format_documents] returns the lines of the chunks joined by
    line feeds, in the order of the sequence; there is one line per chunk,
    and the line of the chunk at position [i] is its rank [i + 1], a full
    stop and a space, the base name of its source path, a colon and a
    space, and its text.  The lines are read off the source paths and the
    texts alone: nothing is scored, and no chunk is changed. *)
Theorem format_documents_renders_ranked (documents : list Document) :
  format_documents documents
  = String.concat newline (render_ranked 1 documents)
  /\ List.length (render_ranked 1 documents) = List.length documents
  /\ (forall i chunk, nth_error documents i = Some chunk ->
        nth_error (render_ranked 1 documents) i
        = Some (str_of_nat (i + 1) ++ ". " ++ basename (source chunk)
                ++ ": " ++ page_content chunk)%string)
  /\ (forall others,
        map source others = map source documents ->
        map page_content others = map page_content documents ->
        format_documents others = format_documents documents).
Proof.
  assert (E : forall l, format_documents l
                        = String.concat newline (render_ranked 1 l)).
  { intros l. unfold format_documents, enumerate.
    rewrite enumerate_render. reflexivity. }
  split; [apply E |]. split.
  { generalize 1. induction documents as [| d l IH]; intros k;
      [reflexivity |].
    cbn [render_ranked List.length]. rewrite IH. reflexivity. }
  split.
  { intros i chunk Hi. rewrite (render_ranked_nth _ 1 i chunk Hi).
    unfold render_chunk. rewrite (Nat.add_comm 1 i). reflexivity. }
  intros others Hs Hc. rewrite !E.
  rewrite (render_ranked_ext others documents 1 Hs Hc). reflexivity.
Qed.
